(** * Discount scraper: price normalisation, discount filter and scrape cycle

    A shallow embedding of [src/server.js] and of its sibling variant
    [src/unnamed/part_000].  Both files define one function, [scrape], whose
    body holds the in-page field extractor, the price normaliser
    [cleanAndParse], the discount computation, the filter and the
    persistence loop.

    Conventions of the embedding:
    - a JavaScript Number is an IEEE 754 binary64 value, [spec_float] with
      [prec = 53] and [emax = 1024];
    - a JavaScript string is a [string] holding its UTF-8 bytes.  Every
      character the program tests for (digits, [.], [,], ASCII letters,
      white space, the manat sign) keeps its identity under that encoding;
    - [undefined] / [null] in a position that otherwise holds a [T] is
      [None : option T];
    - calls into Playwright and Supabase are answered by an environment
      [Env]; the computation records every call it attempts in a trace. *)

From Stdlib Require Import ZArith List String Ascii Bool Lia QArith Qabs.
From Stdlib Require Import Floats.SpecFloat.
Import ListNotations.

Local Open Scope string_scope.
Local Open Scope Z_scope.

(** ** JavaScript Numbers *)

Module JSNum.

Definition number : Type := spec_float.

Definition prec : Z := 53.
Definition emax : Z := 1024.

Definition NaN : number := S754_nan.
Definition zero : number := S754_zero false.

(** Integer literals such as [0], [40] and [100]. *)
Definition of_Z (n : Z) : number := binary_normalize prec emax n 0 false.

Definition add (x y : number) : number := SFadd prec emax x y.
Definition sub (x y : number) : number := SFsub prec emax x y.
Definition mul (x y : number) : number := SFmul prec emax x y.
Definition div (x y : number) : number := SFdiv prec emax x y.

(** [x > y], [x >= y] and [x === y] on Numbers; each is false as soon as
    one operand is NaN, and [+0 === -0] holds. *)
Definition gt (x y : number) : bool := SFltb y x.
Definition ge (x y : number) : bool := SFleb y x.
Definition strict_eq (x y : number) : bool := SFeqb x y.

(** The Number nearest to [(-1)^neg * m * 10^x], ties to even: the value
    of a decimal literal with digits [m] and decimal exponent [x]. *)
Definition of_decimal (neg : bool) (m : Z) (x : Z) : number :=
  match m with
  | Z0 => S754_zero neg
  | Zneg _ => S754_nan
  | Zpos p =>
      if 0 <=? x
      then binary_normalize prec emax
             (cond_Zopp neg (Zpos p * 10 ^ x)) 0 false
      else
        let '(q, e, l) :=
          SFdiv_core_binary prec emax (Zpos p) 0 (10 ^ (- x)) 0 in
        binary_round_aux prec emax neg q e l
  end.

(** [Math.round]: the nearest integer, a tie going towards +infinity;
    NaN, the infinities and the zeros are returned unchanged, and a
    negative argument that rounds to zero gives [-0]. *)
Definition Math_round (x : number) : number :=
  match x with
  | S754_finite s m e =>
      if 0 <=? e then x
      else
        let n := Z.shiftr (cond_Zopp s (Zpos m) + 2 ^ (- e - 1)) (- e) in
        if n =? 0 then S754_zero s else of_Z n
  | _ => x
  end.

(** The rational a finite Number stands for. *)
Definition to_Q (x : number) : option Q :=
  match x with
  | S754_zero _ => Some 0%Q
  | S754_finite s m e =>
      let v := if 0 <=? e then inject_Z (Zpos m * 2 ^ e)
               else Qmake (Zpos m) (Z.to_pos (2 ^ (- e))) in
      Some (if s then Qopp v else v)
  | _ => None
  end.

End JSNum.

(** ** JavaScript strings *)

Module JSString.

Definition code (c : ascii) : N := N_of_ascii c.

Definition is_digit (c : ascii) : bool :=
  ((48 <=? code c) && (code c <=? 57))%N.

Definition digit_value (c : ascii) : Z := Z.of_N (code c) - 48.

Fixpoint drop (n : nat) (s : string) : string :=
  match n, s with
  | S k, String _ r => drop k r
  | _, _ => s
  end.

Fixpoint take (n : nat) (s : string) : string :=
  match n, s with
  | S k, String c r => String c (take k r)
  | _, _ => ""
  end.

(** [s.startsWith(p)] *)
Definition startsWith (p s : string) : bool := String.prefix p s.

(** [s.includes(c)] for a one-character needle. *)
Fixpoint includes (c : ascii) (s : string) : bool :=
  match s with
  | "" => false
  | String a r => Ascii.eqb a c || includes c r
  end.

(** [s.replace(/[^...]/g, '')]: keep the characters that satisfy [keep]. *)
Fixpoint keep_chars (keep : ascii -> bool) (s : string) : string :=
  match s with
  | "" => ""
  | String a r =>
      if keep a then String a (keep_chars keep r) else keep_chars keep r
  end.

(** [s.replace(c, d)] with a string pattern: only the first occurrence. *)
Fixpoint replace_first (c d : ascii) (s : string) : string :=
  match s with
  | "" => ""
  | String a r =>
      if Ascii.eqb a c then String d r else String a (replace_first c d r)
  end.

(** The number of bytes of the white-space character [s] starts with, or
    [0] when it starts with none.  The set is the one shared by [\s],
    [trim] and [parseFloat]: TAB, LF, VT, FF, CR, SP, U+00A0, U+1680,
    U+2000..U+200A, U+2028, U+2029, U+202F, U+205F, U+3000, U+FEFF. *)
Definition white_space_width (s : string) : nat :=
  match s with
  | "" => O
  | String a r =>
      let a := code a in
      if ((9 <=? a) && (a <=? 13) || (a =? 32))%N then 1%nat
      else
        match r with
        | String b (String c _) =>
            let b := code b in
            let c := code c in
            if ((a =? 194) && (b =? 160))%N then 2%nat
            else if ((a =? 225) && (b =? 154) && (c =? 128))%N then 3%nat
            else if ((a =? 226) && (b =? 128) &&
                     ((128 <=? c) && (c <=? 138) ||
                      (c =? 168) || (c =? 169) || (c =? 175)))%N then 3%nat
            else if ((a =? 226) && (b =? 129) && (c =? 159))%N then 3%nat
            else if ((a =? 227) && (b =? 128) && (c =? 128))%N then 3%nat
            else if ((a =? 239) && (b =? 187) && (c =? 191))%N then 3%nat
            else O
        | String b "" =>
            if ((a =? 194) && (code b =? 160))%N then 2%nat else O
        | "" => O
        end
  end.

(** Length in bytes of the longest run of white space [s] starts with. *)
Fixpoint white_space_run (fuel : nat) (s : string) : nat :=
  match fuel with
  | O => O
  | S f =>
      match white_space_width s with
      | O => O
      | w => (w + white_space_run f (drop w s))%nat
      end
  end.

Definition trimStart (s : string) : string :=
  drop (white_space_run (String.length s) s) s.

Definition all_white_space (s : string) : bool :=
  match trimStart s with "" => true | _ => false end.

Fixpoint trimEnd (s : string) : string :=
  match s with
  | "" => ""
  | String a r => if all_white_space s then "" else String a (trimEnd r)
  end.

(** [s.trim()] *)
Definition trim (s : string) : string := trimEnd (trimStart s).

(** Longest prefix of characters satisfying [p], and what follows it. *)
Fixpoint span (p : ascii -> bool) (s : string) : string * string :=
  match s with
  | "" => ("", "")
  | String a r =>
      if p a then let '(x, y) := span p r in (String a x, y) else ("", s)
  end.

(** [a || b] on strings: [a] unless it is empty. *)
Definition or_else (a b : string) : string :=
  match a with "" => b | _ => a end.

(** Truthiness of a string. *)
Definition truthy (a : string) : bool :=
  match a with "" => false | _ => true end.

End JSString.

(** ** [parseFloat] *)

Module JSParse.
Import JSNum JSString.

Definition digits_value (ds : string) : Z :=
  fold_left (fun acc c => 10 * acc + digit_value c)
            (list_ascii_of_string ds) 0.

(** [ExponentPart]: [e] or [E], an optional sign and at least one digit;
    when the text at hand is not of that shape there is no exponent
    part and the literal ends before it. *)
Definition exponent_part (s : string) : Z :=
  match s with
  | String c r =>
      if Ascii.eqb c "e" || Ascii.eqb c "E" then
        let '(neg, r') :=
          match r with
          | String "+" t => (false, t)
          | String "-" t => (true, t)
          | _ => (false, r)
          end in
        let '(ds, _) := span is_digit r' in
        match ds with
        | "" => 0
        | _ => cond_Zopp neg (digits_value ds)
        end
      else 0
  | "" => 0
  end.

(** [StrUnsignedDecimalLiteral] made of digits: an integer part, an
    optional [.] with a fraction, an optional exponent; one of the two
    digit groups must be present.  The value is the Number nearest to
    the literal. *)
Definition parse_decimal (neg : bool) (s : string) : number :=
  let '(ip, r1) := span is_digit s in
  let '(fp, r2) :=
    match r1 with
    | String "." t => span is_digit t
    | _ => ("", r1)
    end in
  match ip ++ fp with
  | "" => NaN
  | ds =>
      of_decimal neg (digits_value ds)
                 (exponent_part r2 - Z.of_nat (String.length fp))
  end.

(** [parseFloat(string)]: skip leading white space, then read the longest
    prefix that is a [StrDecimalLiteral] (a sign, then [Infinity] or a
    decimal literal); [NaN] when no prefix is one. *)
Definition parseFloat (input : string) : number :=
  let s := trimStart input in
  let '(neg, s1) :=
    match s with
    | String "+" t => (false, t)
    | String "-" t => (true, t)
    | _ => (false, s)
    end in
  if startsWith "Infinity" s1 then S754_infinity neg
  else parse_decimal neg s1.

End JSParse.

(** ** The regular expression of the fallback price scan *)

Module PriceRegex.
Import JSString.

(** The class [[0-9.,]]; its complement is what [cleanAndParse] strips. *)
Definition is_price_char (c : ascii) : bool :=
  is_digit c || Ascii.eqb c "," || Ascii.eqb c ".".

(** Case folding of the [i] flag; only ASCII letters fold onto the
    letters of the pattern. *)
Definition upper (c : ascii) : ascii :=
  if ((97 <=? code c) && (code c <=? 122))%N
  then ascii_of_N (code c - 32) else c.

(** Bytes taken by the alternative [(?:TL|₼|AZN)] at the head of [s], [0]
    when none matches.  The manat sign U+20BC is the bytes 226 130 188. *)
Definition currency_marker_width (s : string) : nat :=
  match s with
  | String a (String b r) =>
      if Ascii.eqb (upper a) "T" && Ascii.eqb (upper b) "L" then 2%nat
      else
        match r with
        | String c _ =>
            if ((code a =? 226) && (code b =? 130) && (code c =? 188))%N
            then 3%nat
            else if Ascii.eqb (upper a) "A" && Ascii.eqb (upper b) "Z"
                    && Ascii.eqb (upper c) "N" then 3%nat
            else O
        | "" => O
        end
  | _ => O
  end.

(** One attempt of [/([0-9.,]+)\s*(?:TL|₼|AZN)/i] at the head of [s]: the
    matched text and the rest.  Both quantifiers are greedy, and giving
    back a character never helps: the character given back is a price
    character or a white space, and no currency marker starts with
    either. *)
Definition match_at (s : string) : option (string * string) :=
  let '(num, r1) := span is_price_char s in
  match num with
  | "" => None
  | _ =>
      let w := white_space_run (String.length r1) r1 in
      let r2 := drop w r1 in
      match currency_marker_width r2 with
      | O => None
      | k => Some (num ++ take w r1 ++ take k r2, drop k r2)
      end
  end.

(** The [g] flag: scan left to right, resume after each match. *)
Fixpoint match_all (fuel : nat) (s : string) : list string :=
  match fuel, s with
  | S f, String _ r =>
      match match_at s with
      | Some (m, rest) => m :: match_all f rest
      | None => match_all f r
      end
  | _, _ => []
  end.

(** [text.match(/([0-9.,]+)\s*(?:TL|₼|AZN)/gi)]: [null] without a match. *)
Definition match_prices (text : string) : option (list string) :=
  match match_all (String.length text) text with
  | [] => None
  | ms => Some ms
  end.

End PriceRegex.

(** ** Data model *)

(** What [el.querySelector(sel)] hands back, as far as the extractor reads
    it: [innerText], and the [href] and [src] properties. *)
Record Node := {
  node_innerText : string;
  node_href : string;
  node_src : string
}.

(** One item card [el] of the fetched document. *)
Record Element := {
  innerText : string;
  getAttribute : string -> option string;
  querySelector : string -> option Node
}.

(** An entry of [items], as pushed by the extractor. *)
Record RawItem := {
  title : string;
  priceStr : string;
  orgPriceStr : string;
  link : string;
  img : string
}.

(** A record as built by the [map] callback and sent to the store. *)
Record Product := {
  p_title : string;
  price : JSNum.number;
  original_price : JSNum.number;
  discount_rate : JSNum.number;
  image_url : string;
  product_url : string;
  platform : string;
  external_id : string
}.

(** An entry of [CONFIG] ([parser] is [null] in both entries and never
    read). *)
Record PlatformConfig := {
  url : string;
  selector : string
}.

(** The two files of the repository. *)
Inductive Variant := ServerJs | Part000.

(** ** Platform registry *)

Definition CONFIG : list (string * PlatformConfig) :=
  [ ("trendyol",
     {| url := "https://www.trendyol.com/sr?wc=103328&fl=en-cok-one-cikanlar";
        selector := ".product-card-jfy" |});
    ("temu",
     {| url := "https://www.temu.com/az/channel/lightning-deals.html";
        selector := ".goods-item" |}) ].

(** [CONFIG] is an object literal, so a property read that finds no own
    property goes on to [Object.prototype].  These are its property names;
    each holds a function, except [__proto__] which yields the prototype
    object itself. *)
Definition Object_prototype_keys : list string :=
  [ "constructor"; "__defineGetter__"; "__defineSetter__"; "hasOwnProperty";
    "__lookupGetter__"; "__lookupSetter__"; "isPrototypeOf";
    "propertyIsEnumerable"; "toString"; "valueOf"; "__proto__";
    "toLocaleString" ].

(** The value of [CONFIG[platformKey]]. *)
Inductive ConfigValue :=
| CfgUndefined
| CfgEntry (c : PlatformConfig)
| CfgInherited (name : string).

Fixpoint own_property (key : string) (o : list (string * PlatformConfig))
  : option PlatformConfig :=
  match o with
  | [] => None
  | (k, c) :: rest => if String.eqb k key then Some c else own_property key rest
  end.

Definition CONFIG_get (platformKey : string) : ConfigValue :=
  match own_property platformKey CONFIG with
  | Some c => CfgEntry c
  | None =>
      if existsb (String.eqb platformKey) Object_prototype_keys
      then CfgInherited platformKey
      else CfgUndefined
  end.

(** [config.url] and [config.selector]; [undefined] on an inherited value. *)
Definition config_url (config : ConfigValue) : option string :=
  match config with CfgEntry c => Some (url c) | _ => None end.

Definition config_selector (config : ConfigValue) : option string :=
  match config with CfgEntry c => Some (selector c) | _ => None end.

(** ** Field extractor (the callback of [querySelectorAll(...).forEach]) *)

Module Extract.
Import JSString PriceRegex.

Definition getTxt (el : Element) (sel : string) : string :=
  match querySelector el sel with
  | Some n => node_innerText n
  | None => ""
  end.

Definition brand (el : Element) : string :=
  or_else (getTxt el ".product-brand") (getTxt el ".prdct-desc-cntnr-ttl").

Definition name (el : Element) : string :=
  or_else (or_else (getTxt el ".product-name")
                   (getTxt el ".prdct-desc-cntnr-name"))
          (getTxt el ".fn.name").

(** The chain of sale-price selectors. *)
Definition sale_price_text (el : Element) : string :=
  or_else (or_else (or_else (getTxt el ".sale-price")
                            (getTxt el ".prc-box-dscntd"))
                   (getTxt el ".prc-box-sllng"))
          (getTxt el ".discounted-price").

(** The chain of original-price selectors. *)
Definition original_price_text (el : Element) : string :=
  or_else (or_else (getTxt el ".strikethrough-price")
                   (getTxt el ".prc-box-orgnl"))
          (getTxt el ".original-price").

(** [server.js]: selectors first, then the scan of the card's text when
    [price] is empty, then [if (!orgPrice) orgPrice = price]. *)
Definition prices_server (el : Element) : string * string :=
  let price := sale_price_text el in
  let orgPrice := original_price_text el in
  let '(price, orgPrice) :=
    if truthy price then (price, orgPrice)
    else
      match match_prices (innerText el) with
      | Some (first :: more) =>
          match more with
          | [] => (first, orgPrice)
          | _ => (last more first, first)
          end
      | _ => (price, orgPrice)
      end in
  (price, if truthy orgPrice then orgPrice else price).

(** [part_000]: selectors only; [orgPrice] ends its chain with [|| price]. *)
Definition prices_part000 (el : Element) : string * string :=
  let price := sale_price_text el in
  (price, or_else (original_price_text el) price).

Definition prices (v : Variant) (el : Element) : string * string :=
  match v with
  | ServerJs => prices_server el
  | Part000 => prices_part000 el
  end.

(** [el.getAttribute('href') || (el.querySelector('a') ?
    el.querySelector('a').href : '')] *)
Definition raw_link (el : Element) : string :=
  let anchor :=
    match querySelector el "a" with
    | Some a => node_href a
    | None => ""
    end in
  match getAttribute el "href" with
  | Some h => or_else h anchor
  | None => anchor
  end.

(** [link.startsWith('http') ? link : 'https://www.trendyol.com' + link] *)
Definition fix_link (link : string) : string :=
  if startsWith "http" link then link
  else "https://www.trendyol.com" ++ link.

Definition extract_item (v : Variant) (el : Element) : RawItem :=
  let '(price, orgPrice) := prices v el in
  {| title := trim (brand el ++ " " ++ name el);
     priceStr := price;
     orgPriceStr := orgPrice;
     link := fix_link (raw_link el);
     img := match querySelector el "img" with
            | Some i => node_src i
            | None => ""
            end |}.

End Extract.

(** ** Price normaliser and discount filter *)

Module Normalize.
Import JSNum JSString JSParse PriceRegex.

(** The two branches on the separators met in the stripped string: with
    a comma and a dot, drop every dot and turn the first comma into a
    dot; with a comma only, turn the first comma into a dot; otherwise
    leave the string alone. *)
Definition decimal_point (s : string) : string :=
  if includes "," s && includes "." s
  then replace_first "," "." (keep_chars (fun c => negb (Ascii.eqb c ".")) s)
  else if includes "," s then replace_first "," "." s
  else s.

(** [cleanAndParse]; [None] is [undefined]. *)
Definition cleanAndParse (str : option string) : number :=
  match str with
  | None => zero
  | Some "" => zero
  | Some str => parseFloat (decimal_point (keep_chars is_price_char str))
  end.

(** The callback of [products.map]. *)
Definition processItem (platformKey : string) (p : RawItem) : Product :=
  let price := cleanAndParse (Some (priceStr p)) in
  let orgPrice := cleanAndParse (Some (orgPriceStr p)) in
  let orgPrice := if strict_eq orgPrice zero then price else orgPrice in
  let discount :=
    if gt orgPrice price && gt orgPrice zero
    then mul (div (sub orgPrice price) orgPrice) (of_Z 100)
    else zero in
  {| p_title := title p;
     price := price;
     original_price := orgPrice;
     discount_rate := Math_round discount;
     image_url := img p;
     (* [p.product_url] is undefined on every raw item *)
     product_url := link p;
     platform := platformKey;
     external_id := link p |}.

(** The predicate of [.filter]. *)
Definition keeps (p : Product) : bool :=
  ge (discount_rate p) (of_Z 40) && gt (price p) zero.

Definition validProducts (platformKey : string) (products : list RawItem)
  : list Product :=
  filter keeps (map (processItem platformKey) products).

End Normalize.

(** ** The scrape cycle *)

(** *** Calls into the outside world *)

(** How an awaited call ends: it yields a value or throws an error with a
    [message]. *)
Inductive outcome (A : Type) : Type :=
| Returns (a : A)
| Throws (message : string).
Arguments Returns {A} a.
Arguments Throws {A} message.

(** What [await supabase...upsert(prod, ...).select()] resolves to:
    [{ data, error }], with [data] an array of rows or [null]. *)
Record UpsertReply := {
  data : option (list Product);
  error : option string
}.

(** The calls [scrape] makes, in the order it makes them. *)
Inductive Event :=
| Launch
| NewContext
| AddCookies
| NewPage
| Goto (target : option string)
| ScrollBy
| WaitForTimeout (ms : Z)
| Evaluate (sel : option string)
| Upsert (prod : Product)
| Close.

(** The answers of the browser, the page and the store.  The elements
    [page_elements] returns are those [document.querySelectorAll(selector)]
    finds, in document order; [store_upsert n] answers the [n]-th upsert. *)
Record Env := {
  chromium_launch : outcome unit;
  browser_newContext : outcome unit;
  context_addCookies : outcome unit;
  context_newPage : outcome unit;
  page_goto : option string -> outcome unit;
  page_scroll : outcome unit;
  page_waitForTimeout : outcome unit;
  page_elements : option string -> outcome (list Element);
  store_upsert : nat -> Product -> outcome UpsertReply;
  browser_close : outcome unit
}.

(** *** Computations: an outcome and the trace of calls attempted *)

Definition M (A : Type) : Type := outcome A * list Event.

Definition ret {A} (a : A) : M A := (Returns a, []).

Definition bind {A B} (m : M A) (k : A -> M B) : M B :=
  match m with
  | (Returns a, t) => let '(r, t') := k a in (r, (t ++ t')%list)
  | (Throws e, t) => (Throws e, t)
  end.

(** An awaited call: it is recorded whether it returns or throws. *)
Definition call {A} (ev : Event) (answer : outcome A) : M A := (answer, [ev]).

(** [try { body } catch (e) { handler e }] *)
Definition try_catch {A} (body : M A) (handler : string -> M A) : M A :=
  match body with
  | (Returns a, t) => (Returns a, t)
  | (Throws e, t) => let '(r, t') := handler e in (r, (t ++ t')%list)
  end.

(** [try { body } finally { final }]: [final] always runs; when it throws,
    its error replaces the outcome of [body]. *)
Definition try_finally {A} (body : M A) (final : M unit) : M A :=
  let '(r, t) := body in
  match final with
  | (Returns _, t') => (r, (t ++ t')%list)
  | (Throws e, t') => (Throws e, (t ++ t')%list)
  end.

Declare Scope scrape_scope.
Delimit Scope scrape_scope with scrape.
Notation "x <- m ;; k" := (bind m (fun x => k))
  (at level 61, m at next level, right associativity) : scrape_scope.
Notation "m ;;; k" := (bind m (fun _ => k))
  (at level 61, right associativity) : scrape_scope.

(** *** What [scrape] returns *)

Inductive Payload :=
| ErrorPayload (message : string)
| SuccessPayload (total_found filtered_count saved_count : nat)
                 (products : list Product) (debug_raw_data : list RawItem).

Module Scrape.
Import Extract Normalize.
Local Open Scope scrape_scope.

(** The [for ... of validProducts] loop; [savedItems] receives [data[0]],
    which is [undefined] when [data] is an empty array. *)
Fixpoint save_all (env : Env) (n : nat) (prods : list Product)
         (savedItems : list (option Product)) : M (list (option Product)) :=
  match prods with
  | [] => ret savedItems
  | prod :: rest =>
      reply <- call (Upsert prod) (store_upsert env n prod) ;;
      match error reply, data reply with
      | None, Some rows => save_all env (S n) rest (savedItems ++ [hd_error rows])%list
      | _, _ => save_all env (S n) rest savedItems
      end
  end.

(** The body of the [try] block. *)
Definition cycle (v : Variant) (env : Env) (platformKey : string)
           (config : ConfigValue) : M Payload :=
  call (Goto (config_url config)) (page_goto env (config_url config)) ;;;
  call ScrollBy (page_scroll env) ;;;
  call (WaitForTimeout 3000) (page_waitForTimeout env) ;;;
  els <- call (Evaluate (config_selector config))
              (page_elements env (config_selector config)) ;;
  let products := map (extract_item v) els in
  let valid := validProducts platformKey products in
  savedItems <- save_all env 0 valid [] ;;
  ret (SuccessPayload (List.length products) (List.length valid)
                      (List.length savedItems)
                      (firstn 50 valid) (firstn 10 products)).

(** The context set-up that precedes the [try] block; [server.js] also
    sets the region cookies there. *)
Definition setup (v : Variant) (env : Env) : M unit :=
  call Launch (chromium_launch env) ;;;
  call NewContext (browser_newContext env) ;;;
  match v with
  | ServerJs => call AddCookies (context_addCookies env)
  | Part000 => ret tt
  end ;;;
  call NewPage (context_newPage env).

Definition scrape (v : Variant) (env : Env) (platformKey : string)
  : M Payload :=
  match CONFIG_get platformKey with
  | CfgUndefined => ret (ErrorPayload "Platform not supported")
  | config =>
      setup v env ;;;
      try_finally
        (try_catch (cycle v env platformKey config)
                   (fun message => ret (ErrorPayload message)))
        (call Close (browser_close env))
  end.

End Scrape.

(** ** Reference statements and sample inputs *)

Module Samples.
Import JSNum Normalize.

(** A raw item that carries only its two price strings. *)
Definition priced (priceText orgPriceText : string) : RawItem :=
  {| title := "";
     priceStr := priceText;
     orgPriceStr := orgPriceText;
     link := "https://www.trendyol.com/p-1";
     img := "" |}.

Fixpoint string_forall (p : ascii -> bool) (s : string) : bool :=
  match s with
  | "" => true
  | String a r => p a && string_forall p r
  end.

(** The string holds no decimal digit. *)
Definition no_digit (s : string) : bool :=
  string_forall (fun c => negb (JSString.is_digit c)) s.

(** The string holds decimal digits only. *)
Definition all_digits (s : string) : bool :=
  string_forall JSString.is_digit s.

Definition is_separator (c : ascii) : bool :=
  Ascii.eqb c "," || Ascii.eqb c ".".

(** The Number [x] is finite and within [eps] of the rational [q]. *)
Definition close_to (x : number) (q eps : Q) : Prop :=
  exists v : Q, to_Q x = Some v /\ (Qabs (v - q) <= eps)%Q.

(** The discount of the Product invariant as the specification words it:
    the rounded percentage when [originalPrice > price > 0], else [0]. *)
Definition spec_discount (price originalPrice : number) : number :=
  if gt originalPrice price && gt price zero
  then Math_round (mul (div (sub originalPrice price) originalPrice)
                       (of_Z 100))
  else zero.

(** The discount with the guard the code tests:
    [orgPrice > price && orgPrice > 0]. *)
Definition code_discount (price originalPrice : number) : number :=
  if gt originalPrice price && gt originalPrice zero
  then Math_round (mul (div (sub originalPrice price) originalPrice)
                       (of_Z 100))
  else zero.

(** The site origin of an absolute URL, in the specification's sense:
    the scheme and the host, that is the text before the first [/] after
    the [//] of the scheme. *)
Fixpoint until_slash (s : string) : string :=
  match s with
  | "" => ""
  | String c r => if Ascii.eqb c "/" then "" else String c (until_slash r)
  end.

Definition site_origin (u : string) : string :=
  if JSString.startsWith "https://" u
  then "https://" ++ until_slash (JSString.drop 8 u)
  else if JSString.startsWith "http://" u
  then "http://" ++ until_slash (JSString.drop 7 u)
  else u.

(** A card without any of the known sub-elements: only its visible text
    and, possibly, its own [href] attribute. *)
Definition bare_card (text : string) (href : option string) : Element :=
  {| innerText := text;
     getAttribute := fun name => if String.eqb name "href" then href else None;
     querySelector := fun _ => None |}.

(** A card of the listing with a struck-through and a sale price, found
    by the selectors of both variants. *)
Definition priced_card (sale original : string) (href : option string)
  : Element :=
  {| innerText := original ++ " " ++ sale;
     getAttribute := fun name => if String.eqb name "href" then href else None;
     querySelector := fun sel =>
       if String.eqb sel ".sale-price"
       then Some {| node_innerText := sale; node_href := ""; node_src := "" |}
       else if String.eqb sel ".strikethrough-price"
       then Some {| node_innerText := original; node_href := ""; node_src := "" |}
       else None |}.

(** An environment in which every call succeeds: the page holds [cards]
    and the store answers each upsert with the stored row. *)
Definition calm (cards : list Element) : Env :=
  {| chromium_launch := Returns tt;
     browser_newContext := Returns tt;
     context_addCookies := Returns tt;
     context_newPage := Returns tt;
     page_goto := fun _ => Returns tt;
     page_scroll := Returns tt;
     page_waitForTimeout := Returns tt;
     page_elements := fun _ => Returns cards;
     store_upsert := fun _ prod =>
       Returns {| data := Some [prod]; error := None |};
     browser_close := Returns tt |}.

(** As [calm], but [browser.newContext] throws. *)
Definition context_fails (message : string) : Env :=
  {| chromium_launch := Returns tt;
     browser_newContext := Throws message;
     context_addCookies := Returns tt;
     context_newPage := Returns tt;
     page_goto := fun _ => Returns tt;
     page_scroll := Returns tt;
     page_waitForTimeout := Returns tt;
     page_elements := fun _ => Returns [];
     store_upsert := fun _ prod =>
       Returns {| data := Some [prod]; error := None |};
     browser_close := Returns tt |}.

(** As [calm], but [context.newPage] throws. *)
Definition page_fails (message : string) : Env :=
  {| chromium_launch := Returns tt;
     browser_newContext := Returns tt;
     context_addCookies := Returns tt;
     context_newPage := Throws message;
     page_goto := fun _ => Returns tt;
     page_scroll := Returns tt;
     page_waitForTimeout := Returns tt;
     page_elements := fun _ => Returns [];
     store_upsert := fun _ prod =>
       Returns {| data := Some [prod]; error := None |};
     browser_close := Returns tt |}.

(** As [calm], but [page.goto] throws when it is not given a string. *)
Definition strict_goto (cards : list Element) : Env :=
  {| chromium_launch := Returns tt;
     browser_newContext := Returns tt;
     context_addCookies := Returns tt;
     context_newPage := Returns tt;
     page_goto := fun target =>
       match target with
       | Some _ => Returns tt
       | None => Throws "page.goto: url: expected string, got undefined"
       end;
     page_scroll := Returns tt;
     page_waitForTimeout := Returns tt;
     page_elements := fun _ => Returns cards;
     store_upsert := fun _ prod =>
       Returns {| data := Some [prod]; error := None |};
     browser_close := Returns tt |}.

Definition trace {A} (m : M A) : list Event := snd m.
Definition result {A} (m : M A) : outcome A := fst m.

End Samples.

(** ** The rest of the two files *)

(** *** The first parser of the [map] callback *)

Module Legacy.
Import JSNum JSString JSParse PriceRegex.

(** [parseTRPrice], declared next to [cleanAndParse] and never called:
    strip, drop every dot, turn the first comma into a dot, parse. *)
Definition parseTRPrice (str : option string) : number :=
  match str with
  | None => zero
  | Some "" => zero
  | Some str =>
      parseFloat
        (replace_first "," "."
           (keep_chars (fun c => negb (Ascii.eqb c "."))
                       (keep_chars is_price_char str)))
  end.

End Legacy.

(** *** The route [GET /scrape/:platform] *)

Module Endpoint.
Import Scrape.

(** What the handler does, as seen from outside: the calls of the cycle
    and the response. *)
Inductive Served :=
| Called (ev : Event)
| ResJson (body : Payload).

(** [async (req, res) => { const result = await
    scrape(req.params.platform); res.json(result); }]: when [scrape]
    throws, the handler throws in turn and [res.json] is not reached.
    [res.json] itself is taken to return. *)
Definition handler (v : Variant) (env : Env) (platformParam : string)
  : outcome unit * list Served :=
  match scrape v env platformParam with
  | (Returns result, t) => (Returns tt, (map Called t ++ [ResJson result])%list)
  | (Throws message, t) => (Throws message, map Called t)
  end.

End Endpoint.

(** *** Vocabulary of the further properties *)

Module Observations.
Import JSNum.

(** The sign of a Number; [NaN] carries none. *)
Definition sign_bit (x : number) : bool :=
  match x with
  | S754_zero s | S754_infinity s | S754_finite s _ _ => s
  | S754_nan => false
  end.

(** The calls of a set-up that goes through. *)
Definition setup_calls (v : Variant) : list Event :=
  match v with
  | ServerJs => [Launch; NewContext; AddCookies; NewPage]
  | Part000 => [Launch; NewContext; NewPage]
  end.

(** The calls made on the page before the store is reached. *)
Definition page_calls (config : ConfigValue) : list Event :=
  [Goto (config_url config); ScrollBy; WaitForTimeout 3000;
   Evaluate (config_selector config)].

(** The calls a [try] block can make. *)
Definition is_cycle_call (ev : Event) : bool :=
  match ev with
  | Goto _ | ScrollBy | WaitForTimeout _ | Evaluate _ | Upsert _ => true
  | _ => false
  end.

Definition is_launch (ev : Event) : bool :=
  match ev with Launch => true | _ => false end.

Definition is_close (ev : Event) : bool :=
  match ev with Close => true | _ => false end.

Definition is_response (s : Endpoint.Served) : bool :=
  match s with Endpoint.ResJson _ => true | _ => false end.

(** An environment in which every call succeeds, the page holds [cards]
    and the store answers as [answer] tells. *)
Definition page_with (cards : list Element)
           (answer : nat -> Product -> outcome UpsertReply) : Env :=
  {| chromium_launch := Returns tt;
     browser_newContext := Returns tt;
     context_addCookies := Returns tt;
     context_newPage := Returns tt;
     page_goto := fun _ => Returns tt;
     page_scroll := Returns tt;
     page_waitForTimeout := Returns tt;
     page_elements := fun _ => Returns cards;
     store_upsert := answer;
     browser_close := Returns tt |}.

(** The store finds every row already present: with [ignoreDuplicates]
    it answers an empty array and no error. *)
Definition already_present : nat -> Product -> outcome UpsertReply :=
  fun _ _ => Returns {| data := Some []; error := None |}.

(** The store refuses every row. *)
Definition refused (message : string) : nat -> Product -> outcome UpsertReply :=
  fun _ _ => Returns {| data := None; error := Some message |}.

(** Every call succeeds but [page.goto], which throws. *)
Definition navigation_fails (message : string) : Env :=
  {| chromium_launch := Returns tt;
     browser_newContext := Returns tt;
     context_addCookies := Returns tt;
     context_newPage := Returns tt;
     page_goto := fun _ => Throws message;
     page_scroll := Returns tt;
     page_waitForTimeout := Returns tt;
     page_elements := fun _ => Returns [];
     store_upsert := already_present;
     browser_close := Returns tt |}.

(** Every call succeeds but [browser.close], which throws. *)
Definition close_fails (cards : list Element) (message : string) : Env :=
  {| chromium_launch := Returns tt;
     browser_newContext := Returns tt;
     context_addCookies := Returns tt;
     context_newPage := Returns tt;
     page_goto := fun _ => Returns tt;
     page_scroll := Returns tt;
     page_waitForTimeout := Returns tt;
     page_elements := fun _ => Returns cards;
     store_upsert := already_present;
     browser_close := Throws message |}.

(** Neither the launch nor the release of the browser. *)
Definition is_inner_call (ev : Event) : bool :=
  negb (is_launch ev) && negb (is_close ev).

(** The store throws on every upsert (the request itself fails). *)
Definition unreachable (message : string)
  : nat -> Product -> outcome UpsertReply :=
  fun _ _ => Throws message.

(** The browser, the page and [browser.close] all answer, and the page
    holds the cards [els]; nothing is said of the store. *)
Definition browser_answers (v : Variant) (env : Env) (config : ConfigValue)
           (els : list Element) : Prop :=
  Scrape.setup v env = (Returns tt, setup_calls v) /\
  page_goto env (config_url config) = Returns tt /\
  page_scroll env = Returns tt /\
  page_waitForTimeout env = Returns tt /\
  page_elements env (config_selector config) = Returns els /\
  browser_close env = Returns tt.

End Observations.

(** * Properties *)

Import JSNum JSString JSParse PriceRegex Extract Normalize Scrape Samples.

(** ** Numbers *)

Lemma SFcompare_refl (x : number) :
  SFcompare x x = Some Eq \/ SFcompare x x = None.
Proof.
  destruct x as [s | s | | s m e]; simpl; auto.
  - destruct s; auto.
  - left. rewrite Z.compare_refl, Pos.compare_cont_refl. destruct s; reflexivity.
Qed.

Lemma gt_irrefl (x : number) : gt x x = false.
Proof.
  unfold gt, SFltb.
  destruct (SFcompare_refl x) as [H | H]; rewrite H; reflexivity.
Qed.

Lemma Math_round_zero : Math_round zero = zero.
Proof. reflexivity. Qed.

Lemma ge_zero_40 : ge zero (of_Z 40) = false.
Proof. reflexivity. Qed.

(** ** The scans stay within their fuel *)

Lemma white_space_width_le (s : string) :
  (white_space_width s <= String.length s)%nat.
Proof.
  destruct s as [| a [| b [| c r]]]; unfold white_space_width;
    repeat match goal with
           | |- context [if ?b then _ else _] => destruct b
           end; cbn [String.length]; lia.
Qed.

Lemma length_drop (n : nat) (s : string) :
  String.length (drop n s) = (String.length s - n)%nat.
Proof.
  revert s. induction n as [| n IH]; intros [| a r]; cbn; auto.
Qed.

(** More fuel than the length of the text changes nothing. *)
Lemma white_space_run_fuel (f1 : nat) :
  forall (f2 : nat) (s : string),
    (String.length s <= f1)%nat -> (String.length s <= f2)%nat ->
    white_space_run f1 s = white_space_run f2 s.
Proof.
  induction f1 as [| f1 IH]; intros f2 s H1 H2.
  - destruct s; [ | cbn in H1; lia]. destruct f2; reflexivity.
  - destruct f2 as [| f2].
    + destruct s; [reflexivity | cbn in H2; lia].
    + cbn [white_space_run].
      pose proof (white_space_width_le s) as Hw.
      destruct (white_space_width s) as [| w]; [reflexivity | ].
      f_equal. apply IH; rewrite length_drop; lia.
Qed.

Lemma span_length (p : ascii -> bool) (s x y : string) :
  span p s = (x, y) ->
  String.length s = (String.length x + String.length y)%nat.
Proof.
  revert x y. induction s as [| a r IH]; intros x y H.
  - inversion H. reflexivity.
  - cbn [span] in H. destruct (p a).
    + destruct (span p r) as [x' y'] eqn:E. inversion H; subst.
      cbn [String.length]. rewrite (IH _ _ eq_refl). reflexivity.
    + inversion H; subst. reflexivity.
Qed.

(** A match of the price pattern consumes at least one character. *)
Lemma match_at_shorter (s m rest : string) :
  match_at s = Some (m, rest) ->
  (String.length rest < String.length s)%nat.
Proof.
  unfold match_at. destruct (span is_price_char s) as [num r1] eqn:E.
  apply span_length in E.
  destruct num as [| d num']; [discriminate | ].
  destruct (currency_marker_width _) as [| k]; [discriminate | ].
  intros H.
  assert (Hrest : rest = drop (S k) (drop (white_space_run (String.length r1) r1) r1))
    by (inversion H; reflexivity).
  rewrite Hrest, !length_drop. cbn [String.length] in E. lia.
Qed.

Lemma match_all_fuel (f1 : nat) :
  forall (f2 : nat) (s : string),
    (String.length s <= f1)%nat -> (String.length s <= f2)%nat ->
    match_all f1 s = match_all f2 s.
Proof.
  induction f1 as [| f1 IH]; intros f2 s H1 H2.
  - destruct s; [ | cbn in H1; lia]. destruct f2; reflexivity.
  - destruct f2 as [| f2].
    + destruct s; [reflexivity | cbn in H2; lia].
    + destruct s as [| a r]; [reflexivity | ].
      cbn [match_all]. cbn [String.length] in H1, H2.
      destruct (match_at (String a r)) as [[m rest] | ] eqn:E.
      * apply match_at_shorter in E. cbn [String.length] in E.
        f_equal. apply IH; lia.
      * apply IH; lia.
Qed.

(** The manat sign is a currency marker, in either letter case of the
    others, and white space may separate it from the number. *)
Example match_prices_markers :
  match_prices "160,00 ₼ 80,50₼ / 3 azn, 1.200  Tl; 7 T, 9 AZ"
  = Some ["160,00 ₼"; "80,50₼"; "3 azn"; "1.200  Tl"].
Proof. reflexivity. Qed.

(** The end-to-end scenario of a card with the price texts ["80 ₼"] and
    ["160 ₼"]: price 80, original price 160, discount 50, kept. *)
Example processItem_manat :
  price (processItem "trendyol" (priced "80 ₼" "160 ₼")) = of_Z 80 /\
  original_price (processItem "trendyol" (priced "80 ₼" "160 ₼")) = of_Z 160 /\
  discount_rate (processItem "trendyol" (priced "80 ₼" "160 ₼")) = of_Z 50 /\
  keeps (processItem "trendyol" (priced "80 ₼" "160 ₼")) = true.
Proof. vm_compute. repeat split. Qed.

(** ** C1: the discount of a product *)

(** The fields of the product built from a raw item. *)
Lemma processItem_fields (platformKey : string) (p : RawItem) :
  discount_rate (processItem platformKey p) =
    code_discount (price (processItem platformKey p))
                  (original_price (processItem platformKey p)) /\
  price (processItem platformKey p) = cleanAndParse (Some (priceStr p)) /\
  original_price (processItem platformKey p) =
    (if strict_eq (cleanAndParse (Some (orgPriceStr p))) zero
     then cleanAndParse (Some (priceStr p))
     else cleanAndParse (Some (orgPriceStr p))).
Proof.
  unfold processItem, code_discount; cbn [discount_rate price original_price].
  repeat split.
  destruct (gt _ _ && gt _ _); reflexivity.
Qed.

(** C1, as stated, fails: the raw item with price text ["0"] and original
    price text ["100"] gets discount 100, where the stated rule
    ([originalPrice > price > 0], else 0) gives 0. *)
Lemma discount_rate_price_zero_counterexample :
  discount_rate (processItem "trendyol" (priced "0" "100")) = of_Z 100 /\
  spec_discount (price (processItem "trendyol" (priced "0" "100")))
                (original_price (processItem "trendyol" (priced "0" "100")))
  = zero /\
  discount_rate (processItem "trendyol" (priced "0" "100")) <>
  spec_discount (price (processItem "trendyol" (priced "0" "100")))
                (original_price (processItem "trendyol" (priced "0" "100"))).
Proof.
  vm_compute. repeat split. discriminate.
Qed.

(** On the products that pass the filter the two guards agree, since the
    filter demands [price > 0]. *)
Lemma validProducts_spec_discount (platformKey : string)
      (products : list RawItem) (q : Product) :
  In q (validProducts platformKey products) ->
  discount_rate q = spec_discount (price q) (original_price q).
Proof.
  unfold validProducts. rewrite filter_In, in_map_iff.
  intros [[p [<- _]] Hk].
  unfold keeps in Hk. apply andb_true_iff in Hk as [Hge Hpos].
  destruct (processItem_fields platformKey p) as [Hd _].
  rewrite Hd in *. unfold code_discount, spec_discount in *.
  rewrite Hpos, andb_true_r.
  destruct (gt (original_price _) (price _)) eqn:Hgt; cbn [andb] in *.
  - destruct (gt (original_price _) zero); [reflexivity | ].
    rewrite ge_zero_40 in Hge. discriminate.
  - reflexivity.
Qed.

(** C1, amended: for every raw item the product's [discount_rate] is the
    rounded percentage [(original_price - price) / original_price * 100]
    when [original_price > price] and [original_price > 0], and 0 in every
    other case, where [price] and [original_price] are the parsed sale
    price and the parsed original price after its fall-back to the sale
    price; on every product that passes the filter this is the rule with
    the guard [original_price > price > 0]. *)
Theorem discount_rate_formula :
  (forall (platformKey : string) (p : RawItem),
      discount_rate (processItem platformKey p) =
        code_discount (price (processItem platformKey p))
                      (original_price (processItem platformKey p)) /\
      price (processItem platformKey p) = cleanAndParse (Some (priceStr p)) /\
      original_price (processItem platformKey p) =
        (if strict_eq (cleanAndParse (Some (orgPriceStr p))) zero
         then cleanAndParse (Some (priceStr p))
         else cleanAndParse (Some (orgPriceStr p)))) /\
  (forall (platformKey : string) (products : list RawItem) (q : Product),
      In q (validProducts platformKey products) ->
      discount_rate q = spec_discount (price q) (original_price q)).
Proof.
  split; [exact processItem_fields | exact validProducts_spec_discount].
Qed.

Lemma discount_rate_formula_witness :
  In (processItem "trendyol" (priced "80 TL" "160 TL"))
     (validProducts "trendyol" [priced "80 TL" "160 TL"]) /\
  discount_rate (processItem "trendyol" (priced "80 TL" "160 TL")) =
  spec_discount (price (processItem "trendyol" (priced "80 TL" "160 TL")))
                (original_price (processItem "trendyol" (priced "80 TL" "160 TL"))).
Proof.
  assert (H : In (processItem "trendyol" (priced "80 TL" "160 TL"))
                 (validProducts "trendyol" [priced "80 TL" "160 TL"]))
    by (left; reflexivity).
  split; [exact H | ].
  exact (proj2 discount_rate_formula "trendyol" [priced "80 TL" "160 TL"] _ H).
Defined.

(** ** C3: inputs without a number *)

Lemma is_separator_cases (c : ascii) :
  is_separator c = true -> c = ","%char \/ c = "."%char.
Proof.
  unfold is_separator. intros H. apply orb_true_iff in H as [H | H];
    apply Ascii.eqb_eq in H; auto.
Qed.

Lemma span_is_digit_separators (s : string) :
  string_forall is_separator s = true -> span is_digit s = ("", s).
Proof.
  destruct s as [| c r]; [reflexivity | ].
  cbn [string_forall]. intros H. apply andb_true_iff in H as [H _].
  destruct (is_separator_cases c H); subst c; reflexivity.
Qed.

Lemma trimStart_separator (c : ascii) (r : string) :
  is_separator c = true -> trimStart (String c r) = String c r.
Proof.
  intros H. unfold trimStart. cbn [String.length white_space_run].
  destruct (is_separator_cases c H); subst c;
    destruct r as [| b [| d r']]; reflexivity.
Qed.

(** A string made of commas and dots has no numeric prefix. *)
Lemma parseFloat_separators (s : string) :
  string_forall is_separator s = true -> parseFloat s = NaN.
Proof.
  destruct s as [| c r]; [reflexivity | ].
  cbn [string_forall]. intros H. apply andb_true_iff in H as [Hc Hr].
  unfold parseFloat. rewrite (trimStart_separator c r Hc).
  destruct (is_separator_cases c Hc); subst c.
  - reflexivity.
  - cbn [startsWith prefix]. unfold parse_decimal. cbn [span is_digit].
    change (is_digit ".") with false. cbv iota.
    rewrite (span_is_digit_separators r Hr). reflexivity.
Qed.

Lemma keep_chars_forall (p q : ascii -> bool) (s : string) :
  string_forall p s = true -> string_forall p (keep_chars q s) = true.
Proof.
  induction s as [| a r IH]; [reflexivity | ].
  cbn [string_forall keep_chars]. intros H.
  apply andb_true_iff in H as [Ha Hr].
  destruct (q a); cbn [string_forall]; rewrite ?Ha; auto.
Qed.

Lemma keep_price_chars_no_digit (s : string) :
  no_digit s = true ->
  string_forall is_separator (keep_chars is_price_char s) = true.
Proof.
  unfold no_digit. induction s as [| a r IH]; [reflexivity | ].
  cbn [string_forall keep_chars]. intros H.
  apply andb_true_iff in H as [Ha Hr]. apply negb_true_iff in Ha.
  unfold is_price_char at 1. rewrite Ha. cbn [orb].
  fold (is_separator a).
  destruct (is_separator a) eqn:E; cbn [string_forall]; rewrite ?E; auto.
Qed.

Lemma replace_first_comma_separators (s : string) :
  string_forall is_separator s = true ->
  string_forall is_separator (replace_first "," "." s) = true.
Proof.
  induction s as [| a r IH]; [reflexivity | ].
  cbn [string_forall replace_first]. intros H.
  apply andb_true_iff in H as [Ha Hr].
  destruct (Ascii.eqb a ","); cbn [string_forall]; [exact Hr | ].
  rewrite Ha. auto.
Qed.

Lemma cleanAndParse_no_digit (str : string) :
  str <> "" -> no_digit str = true -> cleanAndParse (Some str) = NaN.
Proof.
  intros Hne Hnd. destruct str as [| a r]; [congruence | ].
  unfold cleanAndParse, decimal_point.
  pose proof (keep_price_chars_no_digit _ Hnd) as Hs.
  apply parseFloat_separators.
  destruct (includes "," _ && includes "." _).
  - apply replace_first_comma_separators, keep_chars_forall, Hs.
  - destruct (includes "," _).
    + apply replace_first_comma_separators, Hs.
    + exact Hs.
Qed.

Lemma cleanAndParse_nonempty (str : string) :
  str <> "" ->
  cleanAndParse (Some str) =
  parseFloat (decimal_point (keep_chars is_price_char str)).
Proof. destruct str; [congruence | reflexivity]. Qed.

(** C3, as stated, fails: a string of letters is not empty, so it passes
    the [!str] guard, is stripped to the empty string and [parseFloat]
    turns that into NaN, which is not 0. *)
Lemma cleanAndParse_letters_counterexample :
  cleanAndParse (Some "abc") = NaN /\
  cleanAndParse (Some "abc") <> zero /\
  strict_eq (cleanAndParse (Some "abc")) zero = false.
Proof.
  vm_compute. repeat split. discriminate.
Qed.

(** C3, amended: [cleanAndParse] yields 0 for [undefined] and for the
    empty string; for a non-empty input that holds no digit it yields
    NaN. *)
Theorem cleanAndParse_empty_or_unparseable :
  cleanAndParse None = zero /\
  cleanAndParse (Some "") = zero /\
  forall str : string,
    str <> "" -> no_digit str = true -> cleanAndParse (Some str) = NaN.
Proof.
  repeat split. exact cleanAndParse_no_digit.
Qed.

Lemma cleanAndParse_empty_or_unparseable_witness :
  "N/A" <> "" /\ no_digit "N/A" = true /\ cleanAndParse (Some "N/A") = NaN.
Proof.
  split; [discriminate | split; [reflexivity | ]].
  apply cleanAndParse_empty_or_unparseable; [discriminate | reflexivity].
Defined.

(** ** C5: an original price that parses to 0 *)

Lemma processItem_original_zero (platformKey : string) (p : RawItem) :
  strict_eq (cleanAndParse (Some (orgPriceStr p))) zero = true ->
  original_price (processItem platformKey p) = price (processItem platformKey p) /\
  discount_rate (processItem platformKey p) = zero /\
  keeps (processItem platformKey p) = false.
Proof.
  intros H.
  destruct (processItem_fields platformKey p) as [Hd [Hp Ho]].
  rewrite H in Ho.
  assert (Heq : original_price (processItem platformKey p)
                = price (processItem platformKey p)) by congruence.
  assert (Hz : discount_rate (processItem platformKey p) = zero).
  { rewrite Hd, Heq. unfold code_discount. rewrite gt_irrefl. reflexivity. }
  repeat split; [exact Heq | exact Hz | ].
  unfold keeps. rewrite Hz, ge_zero_40. reflexivity.
Qed.

(** C5: when the original-price string of a raw item parses to 0, the
    product's original price is its sale price, its discount is 0, and the
    filter drops it, whatever the sale price. *)
Theorem original_zero_falls_back_and_is_dropped
        (platformKey : string) (p : RawItem) :
  strict_eq (cleanAndParse (Some (orgPriceStr p))) zero = true ->
  original_price (processItem platformKey p) = price (processItem platformKey p) /\
  discount_rate (processItem platformKey p) = zero /\
  keeps (processItem platformKey p) = false /\
  validProducts platformKey [p] = [].
Proof.
  intros H.
  destruct (processItem_original_zero platformKey p H) as [H1 [H2 H3]].
  repeat split; try assumption.
  unfold validProducts. cbn [map filter]. rewrite H3. reflexivity.
Qed.

(** A sale price of 80 with an original price text of ["0,00 TL"]. *)
Lemma original_zero_falls_back_and_is_dropped_witness :
  strict_eq (cleanAndParse (Some (orgPriceStr (priced "80 TL" "0,00 TL")))) zero
  = true /\
  gt (price (processItem "trendyol" (priced "80 TL" "0,00 TL"))) zero = true /\
  original_price (processItem "trendyol" (priced "80 TL" "0,00 TL"))
  = price (processItem "trendyol" (priced "80 TL" "0,00 TL")) /\
  validProducts "trendyol" [priced "80 TL" "0,00 TL"] = [].
Proof.
  split; [reflexivity | split; [reflexivity | ]].
  destruct (original_zero_falls_back_and_is_dropped
              "trendyol" (priced "80 TL" "0,00 TL")) as [H1 [_ [_ H4]]].
  - reflexivity.
  - split; assumption.
Defined.

(** ** C2: the separator rule *)

Lemma append_assoc (x y z : string) : (x ++ y) ++ z = x ++ y ++ z.
Proof.
  induction x as [| a r IH]; [reflexivity | ].
  cbn [append]. rewrite IH. reflexivity.
Qed.

Lemma string_forall_app (p : ascii -> bool) (x y : string) :
  string_forall p (x ++ y) = string_forall p x && string_forall p y.
Proof.
  induction x as [| a r IH]; [reflexivity | ].
  cbn [append string_forall]. rewrite IH, andb_assoc. reflexivity.
Qed.

Lemma string_forall_impl (p q : ascii -> bool) (s : string) :
  (forall c, p c = true -> q c = true) ->
  string_forall p s = true -> string_forall q s = true.
Proof.
  intros Hpq. induction s as [| a r IH]; [reflexivity | ].
  cbn [string_forall]. intros H. apply andb_true_iff in H as [Ha Hr].
  rewrite (Hpq a Ha), (IH Hr). reflexivity.
Qed.

Lemma keep_chars_all (q : ascii -> bool) (s : string) :
  string_forall q s = true -> keep_chars q s = s.
Proof.
  induction s as [| a r IH]; [reflexivity | ].
  cbn [string_forall keep_chars]. intros H.
  apply andb_true_iff in H as [Ha Hr]. rewrite Ha, (IH Hr). reflexivity.
Qed.

Lemma keep_chars_app (q : ascii -> bool) (x y : string) :
  keep_chars q (x ++ y) = keep_chars q x ++ keep_chars q y.
Proof.
  induction x as [| a r IH]; [reflexivity | ].
  cbn [append keep_chars]. destruct (q a); rewrite IH; reflexivity.
Qed.

Lemma includes_app (c : ascii) (x y : string) :
  includes c (x ++ y) = includes c x || includes c y.
Proof.
  induction x as [| a r IH]; [reflexivity | ].
  cbn [append includes]. rewrite IH, orb_assoc. reflexivity.
Qed.

Lemma includes_absent (p : ascii -> bool) (c : ascii) (s : string) :
  p c = false -> string_forall p s = true -> includes c s = false.
Proof.
  intros Hc. induction s as [| a r IH]; [reflexivity | ].
  cbn [string_forall includes]. intros H.
  apply andb_true_iff in H as [Ha Hr]. rewrite (IH Hr), orb_false_r.
  apply Ascii.eqb_neq. intros ->. congruence.
Qed.

Lemma replace_first_app_absent (c d : ascii) (x y : string) :
  includes c x = false ->
  replace_first c d (x ++ y) = x ++ replace_first c d y.
Proof.
  induction x as [| a r IH]; [reflexivity | ].
  cbn [append includes replace_first]. intros H.
  apply orb_false_iff in H as [Ha Hr]. rewrite Ha, (IH Hr). reflexivity.
Qed.

Lemma is_digit_price_char (c : ascii) :
  is_digit c = true -> is_price_char c = true.
Proof. unfold is_price_char. intros ->. reflexivity. Qed.

Lemma is_digit_not_dot (c : ascii) :
  is_digit c = true -> negb (Ascii.eqb c ".") = true.
Proof.
  intros H. apply negb_true_iff, Ascii.eqb_neq. intros ->. discriminate H.
Qed.

(** The longest digit prefix of digits followed by a non-digit. *)
Lemma span_digits_app (ds rest : string) :
  all_digits ds = true ->
  match rest with "" => True | String c _ => is_digit c = false end ->
  span is_digit (ds ++ rest) = (ds, rest).
Proof.
  unfold all_digits. intros Hds Hrest.
  induction ds as [| a r IH].
  - destruct rest as [| c t]; [reflexivity | ].
    cbn [append span]. rewrite Hrest. reflexivity.
  - cbn [string_forall] in Hds. apply andb_true_iff in Hds as [Ha Hr].
    cbn [append span]. rewrite Ha, (IH Hr). reflexivity.
Qed.

Lemma span_digits_all (ds : string) :
  all_digits ds = true -> span is_digit ds = (ds, "").
Proof.
  intros H. rewrite <- (span_digits_app ds "" H I).
  f_equal. induction ds as [| a r IH]; [reflexivity | ].
  cbn [append]. unfold all_digits in H. cbn [string_forall] in H.
  apply andb_true_iff in H as [_ Hr]. rewrite <- (IH Hr). reflexivity.
Qed.

(** White space, a sign and [Infinity] play no part when the text starts
    with a digit. *)
Lemma parseFloat_digit_head (d : ascii) (r : string) :
  is_digit d = true -> parseFloat (String d r) = parse_decimal false (String d r).
Proof.
  intros H.
  destruct d as [[] [] [] [] [] [] [] []]; try discriminate H;
    unfold parseFloat, trimStart; cbn [String.length white_space_run];
    destruct r as [| b [| c r']]; reflexivity.
Qed.

(** Digits, a dot, digits: the value of that decimal literal. *)
Lemma parseFloat_decimal (a c : string) :
  a <> "" -> all_digits a = true -> all_digits c = true ->
  parseFloat (a ++ "." ++ c) =
  of_decimal false (digits_value (a ++ c)) (- Z.of_nat (String.length c)).
Proof.
  intros Hne Ha Hc.
  destruct a as [| d a']; [congruence | ].
  assert (Hd : is_digit d = true).
  { unfold all_digits in Ha. cbn [string_forall] in Ha.
    apply andb_true_iff in Ha as [Hd _]. exact Hd. }
  cbn [append]. rewrite (parseFloat_digit_head d _ Hd).
  unfold parse_decimal.
  change (String d (a' ++ String "." c)) with (String d a' ++ String "." c).
  rewrite (span_digits_app (String d a') (String "." c) Ha) by reflexivity.
  rewrite (span_digits_all c Hc).
  cbn [append exponent_part]. reflexivity.
Qed.

Lemma cleanAndParse_dot_comma (a b c : string) :
  a <> "" -> all_digits a = true -> all_digits b = true ->
  all_digits c = true ->
  cleanAndParse (Some (a ++ "." ++ b ++ "," ++ c)) =
  of_decimal false (digits_value (a ++ b ++ c)) (- Z.of_nat (String.length c)).
Proof.
  intros Hne Ha Hb Hc.
  assert (Hkeep : keep_chars is_price_char (a ++ "." ++ b ++ "," ++ c)
                  = a ++ "." ++ b ++ "," ++ c).
  { apply keep_chars_all. rewrite !string_forall_app.
    rewrite (string_forall_impl _ _ a is_digit_price_char Ha).
    rewrite (string_forall_impl _ _ b is_digit_price_char Hb).
    rewrite (string_forall_impl _ _ c is_digit_price_char Hc).
    reflexivity. }
  rewrite cleanAndParse_nonempty by (destruct a; [congruence | discriminate]).
  rewrite Hkeep. unfold decimal_point.
  assert (Hcomma : includes "," (a ++ "." ++ b ++ "," ++ c) = true).
  { rewrite !includes_app. cbn. rewrite !orb_true_r. reflexivity. }
  assert (Hdot : includes "." (a ++ "." ++ b ++ "," ++ c) = true).
  { rewrite !includes_app. cbn. rewrite !orb_true_r. reflexivity. }
  rewrite Hcomma, Hdot. cbn [andb].
  rewrite !keep_chars_app.
  rewrite (keep_chars_all _ a (string_forall_impl _ _ a is_digit_not_dot Ha)).
  rewrite (keep_chars_all _ b (string_forall_impl _ _ b is_digit_not_dot Hb)).
  rewrite (keep_chars_all _ c (string_forall_impl _ _ c is_digit_not_dot Hc)).
  change (keep_chars (fun c0 => negb (Ascii.eqb c0 ".")) ".") with "".
  change (keep_chars (fun c0 => negb (Ascii.eqb c0 ".")) ",") with ",".
  cbn [append].
  rewrite (replace_first_app_absent "," "." a)
    by (apply (includes_absent is_digit); [reflexivity | exact Ha]).
  rewrite (replace_first_app_absent "," "." b)
    by (apply (includes_absent is_digit); [reflexivity | exact Hb]).
  cbn [replace_first Ascii.eqb]. cbn [Bool.eqb].
  change (String "." c) with ("." ++ c).
  rewrite <- (append_assoc a b ("." ++ c)).
  rewrite parseFloat_decimal.
  - rewrite append_assoc. reflexivity.
  - destruct a; [congruence | discriminate].
  - unfold all_digits. rewrite string_forall_app.
    unfold all_digits in Ha, Hb. rewrite Ha, Hb. reflexivity.
  - exact Hc.
Qed.

Lemma cleanAndParse_comma (a c : string) :
  a <> "" -> all_digits a = true -> all_digits c = true ->
  cleanAndParse (Some (a ++ "," ++ c)) =
  of_decimal false (digits_value (a ++ c)) (- Z.of_nat (String.length c)).
Proof.
  intros Hne Ha Hc.
  rewrite cleanAndParse_nonempty by (destruct a; [congruence | discriminate]).
  rewrite keep_chars_all.
  2:{ rewrite !string_forall_app.
      rewrite (string_forall_impl _ _ a is_digit_price_char Ha).
      rewrite (string_forall_impl _ _ c is_digit_price_char Hc).
      reflexivity. }
  unfold decimal_point.
  assert (Hcomma : includes "," (a ++ "," ++ c) = true).
  { rewrite !includes_app. cbn. rewrite !orb_true_r. reflexivity. }
  assert (Hdot : includes "." (a ++ "," ++ c) = false).
  { rewrite !includes_app.
    rewrite (includes_absent is_digit "." a), (includes_absent is_digit "." c);
      auto. }
  rewrite Hcomma, Hdot. cbn [andb].
  rewrite (replace_first_app_absent "," "." a)
    by (apply (includes_absent is_digit); [reflexivity | exact Ha]).
  cbn [append replace_first Ascii.eqb]. cbn [Bool.eqb].
  change (String "." c) with ("." ++ c).
  apply parseFloat_decimal; assumption.
Qed.

Lemma cleanAndParse_dot (a c : string) :
  a <> "" -> all_digits a = true -> all_digits c = true ->
  cleanAndParse (Some (a ++ "." ++ c)) =
  of_decimal false (digits_value (a ++ c)) (- Z.of_nat (String.length c)).
Proof.
  intros Hne Ha Hc.
  rewrite cleanAndParse_nonempty by (destruct a; [congruence | discriminate]).
  rewrite keep_chars_all.
  2:{ rewrite !string_forall_app.
      rewrite (string_forall_impl _ _ a is_digit_price_char Ha).
      rewrite (string_forall_impl _ _ c is_digit_price_char Hc).
      reflexivity. }
  unfold decimal_point.
  assert (Hcomma : includes "," (a ++ "." ++ c) = false).
  { rewrite !includes_app.
    rewrite (includes_absent is_digit "," a), (includes_absent is_digit "," c);
      auto. }
  rewrite Hcomma. cbn [andb].
  apply parseFloat_decimal; assumption.
Qed.

(** The rule on the stripped text, for every non-empty input. *)
Lemma cleanAndParse_branches (str : string) :
  str <> "" ->
  (includes "," (keep_chars is_price_char str) = true ->
   includes "." (keep_chars is_price_char str) = true ->
   cleanAndParse (Some str) =
   parseFloat (replace_first "," "."
                 (keep_chars (fun c => negb (Ascii.eqb c "."))
                             (keep_chars is_price_char str)))) /\
  (includes "," (keep_chars is_price_char str) = true ->
   includes "." (keep_chars is_price_char str) = false ->
   cleanAndParse (Some str) =
   parseFloat (replace_first "," "." (keep_chars is_price_char str))) /\
  (includes "," (keep_chars is_price_char str) = false ->
   cleanAndParse (Some str) = parseFloat (keep_chars is_price_char str)).
Proof.
  intros Hne. rewrite (cleanAndParse_nonempty str Hne). unfold decimal_point.
  repeat split.
  - intros -> ->. reflexivity.
  - intros -> ->. reflexivity.
  - intros ->. reflexivity.
Qed.

Lemma close_to_by_computation (x : number) (q eps v : Q) :
  to_Q x = Some v -> Qle_bool (Qabs (v - q)) eps = true -> close_to x q eps.
Proof.
  intros Hv Hle. exists v. split; [exact Hv | ].
  apply Qle_bool_iff. exact Hle.
Qed.

(** C2: with a dot and a comma the dots go and the comma is the decimal
    point; with a comma only, the comma is the decimal point; with a dot
    only, the dot is the decimal point.  So ["1.250,50"] is 1250.5,
    ["28,07"] is the Number nearest to 28.07, and ["1.200"] is the Number
    nearest to 1.2, not 1200. *)
Theorem cleanAndParse_separator_rule :
  (forall str : string,
      str <> "" ->
      (includes "," (keep_chars is_price_char str) = true ->
       includes "." (keep_chars is_price_char str) = true ->
       cleanAndParse (Some str) =
       parseFloat (replace_first "," "."
                     (keep_chars (fun c => negb (Ascii.eqb c "."))
                                 (keep_chars is_price_char str)))) /\
      (includes "," (keep_chars is_price_char str) = true ->
       includes "." (keep_chars is_price_char str) = false ->
       cleanAndParse (Some str) =
       parseFloat (replace_first "," "." (keep_chars is_price_char str))) /\
      (includes "," (keep_chars is_price_char str) = false ->
       cleanAndParse (Some str) = parseFloat (keep_chars is_price_char str))) /\
  (forall a b c : string,
      a <> "" -> all_digits a = true -> all_digits b = true ->
      all_digits c = true ->
      cleanAndParse (Some (a ++ "." ++ b ++ "," ++ c)) =
        of_decimal false (digits_value (a ++ b ++ c))
                   (- Z.of_nat (String.length c)) /\
      cleanAndParse (Some (a ++ "," ++ c)) =
        of_decimal false (digits_value (a ++ c)) (- Z.of_nat (String.length c)) /\
      cleanAndParse (Some (a ++ "." ++ c)) =
        of_decimal false (digits_value (a ++ c)) (- Z.of_nat (String.length c))) /\
  cleanAndParse (Some "1.250,50") = S754_finite false 5499757162135552 (-42) /\
  close_to (cleanAndParse (Some "1.250,50")) (2501 # 2) 0 /\
  cleanAndParse (Some "28,07") = S754_finite false 7901002596268114 (-48) /\
  close_to (cleanAndParse (Some "28,07")) (2807 # 100) (1 # 2 ^ 49) /\
  cleanAndParse (Some "1.200") = S754_finite false 5404319552844595 (-52) /\
  close_to (cleanAndParse (Some "1.200")) (12 # 10) (1 # 2 ^ 53) /\
  cleanAndParse (Some "1.200") <> of_Z 1200.
Proof.
  split; [exact cleanAndParse_branches | ].
  split.
  { intros a b c Hne Ha Hb Hc. repeat split.
    - apply cleanAndParse_dot_comma; assumption.
    - apply cleanAndParse_comma; assumption.
    - apply cleanAndParse_dot; assumption. }
  repeat split; try (vm_compute; reflexivity);
    try (eapply close_to_by_computation; vm_compute; reflexivity).
  vm_compute. discriminate.
Qed.

Lemma cleanAndParse_separator_rule_witness :
  "1" <> "" /\ all_digits "1" = true /\ all_digits "250" = true /\
  all_digits "50" = true /\
  cleanAndParse (Some ("1" ++ "." ++ "250" ++ "," ++ "50")) =
  of_decimal false (digits_value ("1" ++ "250" ++ "50")) (- 2).
Proof.
  split; [discriminate | ]. do 3 (split; [reflexivity | ]).
  destruct cleanAndParse_separator_rule as [_ [H _]].
  destruct (H "1" "250" "50") as [H1 _];
    [discriminate | reflexivity | reflexivity | reflexivity | ].
  exact H1.
Defined.

(** ** C4: the filter *)

(** C4: the filter keeps exactly the products with [discount_rate >= 40]
    and [price > 0], in their order; a price of 60 under an original price
    of 100 gives discount 40 and is kept, a price of 61 gives 39 and is
    dropped. *)
Theorem filter_keeps_discount_at_least_40 :
  (forall (platformKey : string) (products : list RawItem),
      validProducts platformKey products =
      filter (fun q => ge (discount_rate q) (of_Z 40) && gt (price q) zero)
             (map (processItem platformKey) products)) /\
  (forall (platformKey : string) (products : list RawItem) (q : Product),
      In q (validProducts platformKey products) <->
      In q (map (processItem platformKey) products) /\
      ge (discount_rate q) (of_Z 40) = true /\ gt (price q) zero = true) /\
  price (processItem "trendyol" (priced "60" "100")) = of_Z 60 /\
  original_price (processItem "trendyol" (priced "60" "100")) = of_Z 100 /\
  discount_rate (processItem "trendyol" (priced "60" "100")) = of_Z 40 /\
  validProducts "trendyol" [priced "60" "100"] =
    [processItem "trendyol" (priced "60" "100")] /\
  price (processItem "trendyol" (priced "61" "100")) = of_Z 61 /\
  discount_rate (processItem "trendyol" (priced "61" "100")) = of_Z 39 /\
  validProducts "trendyol" [priced "61" "100"] = [].
Proof.
  split; [reflexivity | ]. split.
  - intros platformKey products q. unfold validProducts, keeps.
    rewrite filter_In, andb_true_iff. reflexivity.
  - repeat split; vm_compute; reflexivity.
Qed.

(** ** Traces of the scrape cycle *)

Lemma bind_trace_head {A B} (m : M A) (k : A -> M B) (ev : Event) :
  (exists t, trace m = ev :: t) -> exists t, trace (bind m k) = ev :: t.
Proof.
  intros [t Ht]. destruct m as [[a | e] tm]; cbn [trace snd] in Ht; subst tm.
  - cbn [bind]. destruct (k a) as [r t']. cbn. eauto.
  - cbn. eauto.
Qed.

Lemma setup_starts_with_launch (v : Variant) (env : Env) :
  exists t, trace (setup v env) = Launch :: t.
Proof.
  unfold setup. apply bind_trace_head. cbn. eauto.
Qed.

(** A key whose lookup is [undefined] is answered at once. *)
Lemma scrape_undefined_key (v : Variant) (env : Env) (platformKey : string) :
  CONFIG_get platformKey = CfgUndefined ->
  scrape v env platformKey =
  (Returns (ErrorPayload "Platform not supported"), []).
Proof. unfold scrape. intros ->. reflexivity. Qed.

(** The lookup is [undefined] exactly for the keys that are neither a
    registered platform nor a property name of [Object.prototype]. *)
Lemma CONFIG_get_undefined (platformKey : string) :
  CONFIG_get platformKey = CfgUndefined <->
  own_property platformKey CONFIG = None /\
  existsb (String.eqb platformKey) Object_prototype_keys = false.
Proof.
  unfold CONFIG_get.
  destruct (own_property platformKey CONFIG);
    [ | destruct (existsb _ _)]; split; try tauto; try discriminate;
    intros [? ?]; discriminate.
Qed.

(** ** C6: platform keys outside the registry *)

(** C6 at the key ["constructor"]: it is not an entry of the registry, yet
    [CONFIG["constructor"]] is the inherited constructor function, the
    guard lets it through and the browser is launched, whatever the
    environment answers; under a [page.goto] that rejects a missing URL the
    payload carries that error, not ['Platform not supported']. *)
Theorem scrape_constructor_launches_browser :
  own_property "constructor" CONFIG = None /\
  CONFIG_get "constructor" = CfgInherited "constructor" /\
  (forall (v : Variant) (env : Env),
      exists t, trace (scrape v env "constructor") = Launch :: t) /\
  scrape ServerJs (strict_goto []) "constructor" =
    (Returns (ErrorPayload "page.goto: url: expected string, got undefined"),
     [Launch; NewContext; AddCookies; NewPage; Goto None; Close]) /\
  scrape Part000 (strict_goto []) "constructor" =
    (Returns (ErrorPayload "page.goto: url: expected string, got undefined"),
     [Launch; NewContext; NewPage; Goto None; Close]).
Proof.
  split; [reflexivity | ]. split; [reflexivity | ]. split.
  - intros v env. unfold scrape. cbn [CONFIG_get own_property CONFIG].
    change (CONFIG_get "constructor") with (CfgInherited "constructor").
    cbv iota. apply bind_trace_head, setup_starts_with_launch.
  - split; reflexivity.
Qed.

(** ** C7: the destination link *)

(** The element's own [href] wins when it is present and not empty. *)
Lemma raw_link_own_href (el : Element) (h : string) :
  getAttribute el "href" = Some h -> h <> "" -> raw_link el = h.
Proof.
  unfold raw_link. intros -> Hne. destruct h; [congruence | reflexivity].
Qed.

(** Otherwise the [href] of the first descendant anchor is taken, and the
    empty string when there is no anchor. *)
Lemma raw_link_anchor (el : Element) :
  getAttribute el "href" = None \/ getAttribute el "href" = Some "" ->
  raw_link el = match querySelector el "a" with
                | Some a => node_href a
                | None => ""
                end.
Proof. unfold raw_link. intros [-> | ->]; reflexivity. Qed.

(** The prefix put before a link that does not start with [http] is the
    same for every platform. *)
Lemma fix_link_cases (l : string) :
  (startsWith "http" l = true -> fix_link l = l) /\
  (startsWith "http" l = false -> fix_link l = "https://www.trendyol.com" ++ l).
Proof. unfold fix_link. split; intros ->; reflexivity. Qed.

Lemma extract_item_link (v : Variant) (el : Element) :
  link (extract_item v el) = fix_link (raw_link el).
Proof. unfold extract_item. destruct (prices v el). reflexivity. Qed.

(** C7 on the temu platform: a card whose own [href] is the relative link
    ["/goods.html?goods_id=1"] gets the link
    ["https://www.trendyol.com/goods.html?goods_id=1"], in both variants
    and in the payload of the cycle, whereas temu's own origin is
    ["https://www.temu.com"].  On the trendyol platform the prefix is the
    platform's origin. *)
Theorem temu_relative_link_gets_trendyol_origin :
  own_property "temu" CONFIG =
    Some {| url := "https://www.temu.com/az/channel/lightning-deals.html";
            selector := ".goods-item" |} /\
  site_origin "https://www.temu.com/az/channel/lightning-deals.html"
    = "https://www.temu.com" /\
  site_origin "https://www.trendyol.com/sr?wc=103328&fl=en-cok-one-cikanlar"
    = "https://www.trendyol.com" /\
  (forall v : Variant,
      link (extract_item v
              (priced_card "80 TL" "160 TL" (Some "/goods.html?goods_id=1")))
      = "https://www.trendyol.com/goods.html?goods_id=1") /\
  (forall v : Variant,
      link (extract_item v
              (priced_card "80 TL" "160 TL" (Some "/goods.html?goods_id=1")))
      <> "https://www.temu.com" ++ "/goods.html?goods_id=1") /\
  (forall v : Variant,
      exists t,
        scrape v
          (calm [priced_card "80 TL" "160 TL" (Some "/goods.html?goods_id=1")])
          "temu"
        = (Returns
             (SuccessPayload 1 1 1
                [ {| p_title := "";
                     price := of_Z 80;
                     original_price := of_Z 160;
                     discount_rate := of_Z 50;
                     image_url := "";
                     product_url :=
                       "https://www.trendyol.com/goods.html?goods_id=1";
                     platform := "temu";
                     external_id :=
                       "https://www.trendyol.com/goods.html?goods_id=1" |} ]
                [ {| title := "";
                     priceStr := "80 TL";
                     orgPriceStr := "160 TL";
                     link := "https://www.trendyol.com/goods.html?goods_id=1";
                     img := "" |} ]),
           t)).
Proof.
  repeat split; try reflexivity.
  - intros []; reflexivity.
  - intros []; vm_compute; discriminate.
  - intros []; eexists; vm_compute; reflexivity.
Qed.

(** ** C8: release of the browser *)

Lemma try_finally_trace {A} (body : M A) (ev : Event) (answer : outcome unit) :
  exists t, trace (try_finally body (call ev answer)) = (t ++ [ev])%list.
Proof.
  destruct body as [r t]. exists t. unfold call. cbn [try_finally].
  destruct answer; reflexivity.
Qed.

(** Once the set-up has gone through, [browser.close()] is the last call of
    the cycle: after a success, after an empty filter result and after an
    error caught in the [try] block alike. *)
Lemma scrape_closes_after_setup (v : Variant) (env : Env)
      (platformKey : string) (ts : list Event) :
  CONFIG_get platformKey <> CfgUndefined ->
  setup v env = (Returns tt, ts) ->
  exists t, trace (scrape v env platformKey) = (t ++ [Close])%list.
Proof.
  intros Hcfg Hsetup. unfold scrape.
  destruct (CONFIG_get platformKey) as [| c | n] eqn:E; [congruence | | ];
    rewrite Hsetup; cbn [bind];
    match goal with
    | |- context [try_finally ?b (call Close ?a)] =>
        destruct (try_finally_trace b Close a) as [t Ht];
        destruct (try_finally b (call Close a)) as [r t'] eqn:Et
    end;
    cbn [trace snd] in *; subst t'; exists (ts ++ t)%list;
    rewrite app_assoc; reflexivity.
Qed.


(** C8 at a failing context set-up: the browser is launched,
    [browser.newContext] (or [context.newPage]) throws before the [try]
    block is entered, the error leaves [scrape] and [browser.close()] is
    never called. *)
Theorem setup_failure_leaves_browser_open :
  (forall v : Variant,
      scrape v (context_fails "browserContext.newContext: Target closed")
             "trendyol"
      = (Throws "browserContext.newContext: Target closed",
         [Launch; NewContext])) /\
  scrape ServerJs (page_fails "context.newPage: Target closed") "trendyol"
    = (Throws "context.newPage: Target closed",
       [Launch; NewContext; AddCookies; NewPage]) /\
  scrape Part000 (page_fails "context.newPage: Target closed") "trendyol"
    = (Throws "context.newPage: Target closed",
       [Launch; NewContext; NewPage]) /\
  (forall v : Variant,
      In Launch
         (trace (scrape v (context_fails "browserContext.newContext: Target closed")
                        "trendyol")) /\
      ~ In Close
         (trace (scrape v (context_fails "browserContext.newContext: Target closed")
                        "trendyol"))).
Proof.
  split; [intros []; reflexivity | ].
  split; [reflexivity | ]. split; [reflexivity | ].
  intros []; cbn; intuition discriminate.
Qed.

(** ** C9: the two variants of the extractor *)

(** With every sale-price selector empty, [part_000] leaves the price
    empty, while [server.js] takes the last currency-tagged token of the
    card's text as the price and, with two tokens or more, the first one as
    the original price. *)
Lemma prices_without_sale_selector (el : Element) (first : string)
      (more : list string) :
  sale_price_text el = "" ->
  match_prices (innerText el) = Some (first :: more) ->
  fst (prices Part000 el) = "" /\
  fst (prices ServerJs el) = last more first /\
  (more <> [] -> first <> "" -> snd (prices ServerJs el) = first).
Proof.
  intros Hsale Hmatch. cbn [prices]. unfold prices_part000, prices_server.
  rewrite Hsale, Hmatch. cbn [truthy fst]. split; [reflexivity | ].
  destruct more as [| m ms]; cbn [fst snd].
  - split; [reflexivity | congruence].
  - split; [reflexivity | ]. intros _ Hne.
    destruct first; [congruence | reflexivity].
Qed.

(** C9: the card with the visible text
    ["Original: 100 TL - Sale: 80 TL"] and no price element has all its
    sale-price selectors empty and holds two currency-tagged tokens;
    [server.js] extracts the price ["80 TL"] (the last token) and the
    original price ["100 TL"] (the first), [part_000] extracts the empty
    string for both, so the raw items of the two variants differ. *)
Theorem variants_differ_on_regex_fallback :
  exists el : Element,
    sale_price_text el = "" /\
    match_prices (innerText el) = Some ["100 TL"; "80 TL"] /\
    priceStr (extract_item ServerJs el) = "80 TL" /\
    orgPriceStr (extract_item ServerJs el) = "100 TL" /\
    priceStr (extract_item Part000 el) = "" /\
    orgPriceStr (extract_item Part000 el) = "" /\
    priceStr (extract_item ServerJs el) <> priceStr (extract_item Part000 el) /\
    extract_item ServerJs el <> extract_item Part000 el.
Proof.
  exists (bare_card "Original: 100 TL - Sale: 80 TL" None).
  repeat split; try (vm_compute; reflexivity); vm_compute; discriminate.
Qed.

(** ** C10: the counts of a success response *)

(** The loop appends at most one entry per product. *)
Lemma save_all_length (env : Env) (prods : list Product) :
  forall (n : nat) (savedItems saved : list (option Product)) (t : list Event),
    save_all env n prods savedItems = (Returns saved, t) ->
    (List.length savedItems <= List.length saved
     <= List.length savedItems + List.length prods)%nat.
Proof.
  induction prods as [| prod rest IH]; intros n savedItems saved t H.
  - cbn in H. inversion H; subst. cbn. lia.
  - cbn [save_all] in H. unfold call in H. cbn [bind] in H.
    destruct (store_upsert env n prod) as [reply | e]; [ | discriminate].
    destruct (error reply), (data reply);
      match type of H with
      | (let '(_, _) := ?m in _) = _ =>
          destruct m as [r t'] eqn:E; inversion H; subst;
          apply IH in E
      end;
      cbn [List.length]; rewrite ?length_app in *; cbn [List.length] in *; lia.
Qed.

Lemma validProducts_length (platformKey : string) (products : list RawItem) :
  (List.length (validProducts platformKey products) <= List.length products)%nat.
Proof.
  unfold validProducts.
  rewrite <- (length_map (processItem platformKey) products).
  apply filter_length_le.
Qed.

(** What a success payload of the [try] block holds. *)
Lemma cycle_success (v : Variant) (env : Env) (platformKey : string)
      (config : ConfigValue) (total filtered saved : nat)
      (prods : list Product) (raw : list RawItem) (t : list Event) :
  cycle v env platformKey config =
    (Returns (SuccessPayload total filtered saved prods raw), t) ->
  exists els savedItems t',
    page_elements env (config_selector config) = Returns els /\
    save_all env 0 (validProducts platformKey (map (extract_item v) els)) []
      = (Returns savedItems, t') /\
    total = List.length els /\
    filtered = List.length (validProducts platformKey (map (extract_item v) els)) /\
    saved = List.length savedItems.
Proof.
  unfold cycle, call. cbn [bind].
  destruct (page_goto env _); [ | discriminate].
  destruct (page_scroll env); [ | discriminate].
  destruct (page_waitForTimeout env); [ | discriminate].
  destruct (page_elements env _) as [els | e]; [ | discriminate].
  cbn [bind].
  destruct (save_all env 0 _ []) as [[savedItems | e] t'] eqn:E;
    cbn; intros H; inversion H; subst.
  exists els, savedItems, t'. rewrite length_map. auto.
Qed.

(** C10: in every success response, [saved_count <= filtered_count <=
    total_found]. *)
Theorem success_counts_ordered (v : Variant) (env : Env) (platformKey : string)
        (total_found filtered_count saved_count : nat)
        (prods : list Product) (raw : list RawItem) (t : list Event) :
  scrape v env platformKey =
    (Returns (SuccessPayload total_found filtered_count saved_count prods raw), t) ->
  (saved_count <= filtered_count <= total_found)%nat.
Proof.
  unfold scrape. intros H.
  assert (Hcycle : exists config tc,
             cycle v env platformKey config =
             (Returns (SuccessPayload total_found filtered_count saved_count
                                      prods raw), tc)).
  { destruct (CONFIG_get platformKey) as [| c | n] eqn:Ecfg;
      [discriminate | | ];
      (destruct (setup v env) as [[[] | e] ts]; [ | discriminate]);
      cbn [bind] in H; unfold call in H;
      match type of H with
      | context [cycle v env platformKey ?cfg] =>
          destruct (cycle v env platformKey cfg) as [[pl | e] tc] eqn:Ec;
          cbn in H; destruct (browser_close env); inversion H; subst;
          eauto
      end. }
  destruct Hcycle as [config [tc Hc]].
  destruct (cycle_success _ _ _ _ _ _ _ _ _ _ Hc)
    as [els [savedItems [t' [_ [Hsave [-> [-> ->]]]]]]].
  apply save_all_length in Hsave. cbn [List.length] in Hsave.
  pose proof (validProducts_length platformKey (map (extract_item v) els)) as Hv.
  rewrite length_map in Hv. lia.
Qed.

Lemma success_counts_ordered_witness :
  scrape ServerJs
         (calm [priced_card "80 TL" "160 TL" None;
                priced_card "90 TL" "100 TL" None])
         "trendyol"
  = (Returns
       (SuccessPayload 2 1 1
          [processItem "trendyol"
             (extract_item ServerJs (priced_card "80 TL" "160 TL" None))]
          [extract_item ServerJs (priced_card "80 TL" "160 TL" None);
           extract_item ServerJs (priced_card "90 TL" "100 TL" None)]),
     [Launch; NewContext; AddCookies; NewPage;
      Goto (Some "https://www.trendyol.com/sr?wc=103328&fl=en-cok-one-cikanlar");
      ScrollBy; WaitForTimeout 3000; Evaluate (Some ".product-card-jfy");
      Upsert (processItem "trendyol"
                (extract_item ServerJs (priced_card "80 TL" "160 TL" None)));
      Close]) /\
  (1 <= 1 <= 2)%nat.
Proof.
  assert (H : scrape ServerJs
         (calm [priced_card "80 TL" "160 TL" None;
                priced_card "90 TL" "100 TL" None])
         "trendyol"
  = (Returns
       (SuccessPayload 2 1 1
          [processItem "trendyol"
             (extract_item ServerJs (priced_card "80 TL" "160 TL" None))]
          [extract_item ServerJs (priced_card "80 TL" "160 TL" None);
           extract_item ServerJs (priced_card "90 TL" "100 TL" None)]),
     [Launch; NewContext; AddCookies; NewPage;
      Goto (Some "https://www.trendyol.com/sr?wc=103328&fl=en-cok-one-cikanlar");
      ScrollBy; WaitForTimeout 3000; Evaluate (Some ".product-card-jfy");
      Upsert (processItem "trendyol"
                (extract_item ServerJs (priced_card "80 TL" "160 TL" None)));
      Close])) by (vm_compute; reflexivity).
  split; [exact H | ].
  exact (success_counts_ordered _ _ _ _ _ _ _ _ _ H).
Defined.


(** * Further properties of the two files *)

Import Legacy Endpoint Observations.

(** ** Price texts with repeated separators *)

Lemma append_empty_r (s : string) : s ++ "" = s.
Proof.
  induction s as [| a r IH]; [reflexivity | ].
  cbn [append]. rewrite IH. reflexivity.
Qed.

Lemma append_nonempty (x y : string) : x <> "" -> x ++ y <> "".
Proof. destruct x; [congruence | discriminate]. Qed.

Lemma all_digits_app (x y : string) :
  all_digits x = true -> all_digits y = true -> all_digits (x ++ y) = true.
Proof.
  unfold all_digits. intros Hx Hy. rewrite string_forall_app, Hx, Hy.
  reflexivity.
Qed.

Lemma keep_chars_absent (c : ascii) (s : string) :
  includes c s = false ->
  keep_chars (fun x => negb (Ascii.eqb x c)) s = s.
Proof.
  induction s as [| a r IH]; [reflexivity | ].
  cbn [includes keep_chars]. intros H.
  apply orb_false_iff in H as [Ha Hr]. rewrite Ha, (IH Hr). reflexivity.
Qed.

Lemma replace_first_absent (c d : ascii) (s : string) :
  includes c s = false -> replace_first c d s = s.
Proof.
  induction s as [| a r IH]; [reflexivity | ].
  cbn [includes replace_first]. intros H.
  apply orb_false_iff in H as [Ha Hr]. rewrite Ha, (IH Hr). reflexivity.
Qed.

(** Digits, a dot, digits, then text that starts with neither a digit nor
    an exponent: the number ends where that text starts. *)
Lemma parseFloat_decimal_rest (a b rest : string) :
  a <> "" -> all_digits a = true -> all_digits b = true ->
  match rest with "" => True | String c _ => is_digit c = false end ->
  exponent_part rest = 0 ->
  parseFloat (a ++ "." ++ b ++ rest) =
  of_decimal false (digits_value (a ++ b)) (- Z.of_nat (String.length b)).
Proof.
  intros Hne Ha Hb Hrest Hexp.
  destruct a as [| d a']; [congruence | ].
  assert (Hd : is_digit d = true).
  { unfold all_digits in Ha. cbn [string_forall] in Ha.
    apply andb_true_iff in Ha as [Hd _]. exact Hd. }
  cbn [append]. rewrite (parseFloat_digit_head d _ Hd).
  unfold parse_decimal.
  change (String d (a' ++ String "." (b ++ rest)))
    with (String d a' ++ String "." (b ++ rest)).
  rewrite (span_digits_app (String d a') (String "." (b ++ rest)) Ha)
    by reflexivity.
  rewrite (span_digits_app b rest Hb Hrest), Hexp.
  cbn [append]. reflexivity.
Qed.

Lemma keep_price_chars_digits (s : string) :
  all_digits s = true -> string_forall is_price_char s = true.
Proof. apply string_forall_impl, is_digit_price_char. Qed.

Lemma includes_digits (c : ascii) (s : string) :
  is_digit c = false -> all_digits s = true -> includes c s = false.
Proof. intros Hc. apply (includes_absent is_digit); exact Hc. Qed.

(** X1: With two commas and no dot, only the first comma becomes the decimal
    point and the number ends at the second: ["1,250,50"] is 1.25. *)
Theorem cleanAndParse_second_comma_ends_number (a b c : string) :
  a <> "" -> all_digits a = true -> all_digits b = true ->
  all_digits c = true ->
  cleanAndParse (Some (a ++ "," ++ b ++ "," ++ c)) =
  of_decimal false (digits_value (a ++ b)) (- Z.of_nat (String.length b)).
Proof.
  intros Hne Ha Hb Hc.
  rewrite cleanAndParse_nonempty by (apply append_nonempty, Hne).
  rewrite keep_chars_all.
  2:{ rewrite !string_forall_app, (keep_price_chars_digits a Ha),
        (keep_price_chars_digits b Hb), (keep_price_chars_digits c Hc).
      reflexivity. }
  unfold decimal_point.
  assert (Hcomma : includes "," (a ++ "," ++ b ++ "," ++ c) = true).
  { rewrite !includes_app. cbn. rewrite !orb_true_r. reflexivity. }
  assert (Hdot : includes "." (a ++ "," ++ b ++ "," ++ c) = false).
  { rewrite !includes_app, (includes_digits "." a), (includes_digits "." b),
      (includes_digits "." c) by auto. reflexivity. }
  rewrite Hcomma, Hdot. cbn [andb].
  rewrite (replace_first_app_absent "," "." a)
    by (apply includes_digits; auto).
  cbn [append replace_first Ascii.eqb]. cbn [Bool.eqb].
  change (String "." (b ++ String "," c)) with ("." ++ b ++ String "," c).
  apply parseFloat_decimal_rest; auto.
Qed.

Lemma cleanAndParse_second_comma_ends_number_witness :
  "1" <> "" /\ all_digits "1" = true /\ all_digits "250" = true /\
  all_digits "50" = true /\
  cleanAndParse (Some "1,250,50") = of_decimal false 1250 (- 3).
Proof.
  split; [discriminate | ]. do 3 (split; [reflexivity | ]).
  exact (cleanAndParse_second_comma_ends_number "1" "250" "50"
           ltac:(discriminate) eq_refl eq_refl eq_refl).
Defined.

(** X2: With two dots and no comma, nothing is removed and the number ends at
    the second dot: ["1.250.000"] is 1.25. *)
Theorem cleanAndParse_second_dot_ends_number (a b c : string) :
  a <> "" -> all_digits a = true -> all_digits b = true ->
  all_digits c = true ->
  cleanAndParse (Some (a ++ "." ++ b ++ "." ++ c)) =
  of_decimal false (digits_value (a ++ b)) (- Z.of_nat (String.length b)).
Proof.
  intros Hne Ha Hb Hc.
  rewrite cleanAndParse_nonempty by (apply append_nonempty, Hne).
  rewrite keep_chars_all.
  2:{ rewrite !string_forall_app, (keep_price_chars_digits a Ha),
        (keep_price_chars_digits b Hb), (keep_price_chars_digits c Hc).
      reflexivity. }
  unfold decimal_point.
  assert (Hcomma : includes "," (a ++ "." ++ b ++ "." ++ c) = false).
  { rewrite !includes_app, (includes_digits "," a), (includes_digits "," b),
      (includes_digits "," c) by auto. reflexivity. }
  rewrite Hcomma. cbn [andb].
  apply parseFloat_decimal_rest; auto; reflexivity.
Qed.

Lemma cleanAndParse_second_dot_ends_number_witness :
  "1" <> "" /\ all_digits "1" = true /\ all_digits "250" = true /\
  all_digits "000" = true /\
  cleanAndParse (Some "1.250.000") = of_decimal false 1250 (- 3).
Proof.
  split; [discriminate | ]. do 3 (split; [reflexivity | ]).
  exact (cleanAndParse_second_dot_ends_number "1" "250" "000"
           ltac:(discriminate) eq_refl eq_refl eq_refl).
Defined.

(** ** The two parsers of the [map] callback *)

Lemma parseTRPrice_nonempty (str : string) :
  str <> "" ->
  parseTRPrice (Some str) =
  parseFloat (replace_first "," "."
                (keep_chars (fun c => negb (Ascii.eqb c "."))
                            (keep_chars is_price_char str))).
Proof. destruct str; [congruence | reflexivity]. Qed.

(** X3: [parseTRPrice] and [cleanAndParse] give the same Number on every input
    whose price characters hold a comma, or hold no dot; they can only
    part on a text with dots and no comma. *)
Theorem parseTRPrice_agrees_with_cleanAndParse (str : string) :
  includes "," (keep_chars is_price_char str) = true \/
  includes "." (keep_chars is_price_char str) = false ->
  parseTRPrice (Some str) = cleanAndParse (Some str).
Proof.
  intros H. destruct str as [| a r]; [reflexivity | ].
  rewrite parseTRPrice_nonempty, cleanAndParse_nonempty by discriminate.
  unfold decimal_point.
  destruct (includes "," _) eqn:Hcomma, (includes "." _) eqn:Hdot;
    cbn [andb].
  - reflexivity.
  - rewrite (keep_chars_absent "." _ Hdot). reflexivity.
  - destruct H; discriminate.
  - rewrite (keep_chars_absent "." _ Hdot), (replace_first_absent _ _ _ Hcomma).
    reflexivity.
Qed.

Lemma parseTRPrice_agrees_with_cleanAndParse_witness :
  parseTRPrice (Some "1.250,50 TL") = cleanAndParse (Some "1.250,50 TL") /\
  parseTRPrice (Some "1200 TL") = cleanAndParse (Some "1200 TL").
Proof.
  split.
  - apply parseTRPrice_agrees_with_cleanAndParse. left. reflexivity.
  - apply parseTRPrice_agrees_with_cleanAndParse. right. reflexivity.
Defined.

(** Digits alone are read as an integer. *)
Lemma parseFloat_digits (ds : string) :
  ds <> "" -> all_digits ds = true ->
  parseFloat ds = of_decimal false (digits_value ds) 0.
Proof.
  intros Hne Hds. destruct ds as [| d r]; [congruence | ].
  assert (Hd : is_digit d = true).
  { unfold all_digits in Hds. cbn [string_forall] in Hds.
    apply andb_true_iff in Hds as [Hd _]. exact Hd. }
  rewrite (parseFloat_digit_head d r Hd). unfold parse_decimal.
  rewrite (span_digits_all _ Hds). rewrite append_empty_r. reflexivity.
Qed.

(** X4: On digits, a dot, digits, [parseTRPrice] reads the dot as a thousands
    separator and [cleanAndParse] reads it as the decimal point: for
    ["1.200"] the first gives 1200 and the second 1.2. *)
Theorem parseTRPrice_dot_is_thousands_separator (a b : string) :
  a <> "" -> all_digits a = true -> all_digits b = true ->
  parseTRPrice (Some (a ++ "." ++ b)) =
    of_decimal false (digits_value (a ++ b)) 0 /\
  cleanAndParse (Some (a ++ "." ++ b)) =
    of_decimal false (digits_value (a ++ b)) (- Z.of_nat (String.length b)).
Proof.
  intros Hne Ha Hb. split; [ | apply cleanAndParse_dot; assumption].
  rewrite parseTRPrice_nonempty by (apply append_nonempty, Hne).
  rewrite (keep_chars_all is_price_char).
  2:{ rewrite !string_forall_app, (keep_price_chars_digits a Ha),
        (keep_price_chars_digits b Hb). reflexivity. }
  rewrite !keep_chars_app.
  rewrite (keep_chars_all _ a (string_forall_impl _ _ a is_digit_not_dot Ha)).
  rewrite (keep_chars_all _ b (string_forall_impl _ _ b is_digit_not_dot Hb)).
  change (keep_chars (fun c0 => negb (Ascii.eqb c0 ".")) ".") with "".
  cbn [append].
  rewrite replace_first_absent.
  - apply parseFloat_digits;
      [apply append_nonempty, Hne | apply all_digits_app; assumption].
  - rewrite includes_app, (includes_digits "," a), (includes_digits "," b)
      by auto. reflexivity.
Qed.

Lemma parseTRPrice_dot_is_thousands_separator_witness :
  parseTRPrice (Some "1.200") = of_Z 1200 /\
  cleanAndParse (Some "1.200") = of_decimal false 1200 (- 3).
Proof.
  destruct (parseTRPrice_dot_is_thousands_separator "1" "200"
              ltac:(discriminate) eq_refl eq_refl) as [H1 H2].
  split; [exact H1 | exact H2].
Defined.

(** ** What surrounds the price characters *)

Lemma keep_chars_none (q : ascii -> bool) (s : string) :
  string_forall (fun c => negb (q c)) s = true -> keep_chars q s = "".
Proof.
  induction s as [| a r IH]; [reflexivity | ].
  cbn [string_forall keep_chars]. intros H.
  apply andb_true_iff in H as [Ha Hr]. apply negb_true_iff in Ha.
  rewrite Ha. exact (IH Hr).
Qed.


(** X5: Text put before or after a price text does not change the Number, as
    long as it holds no digit, dot or comma: currency names, signs and
    spaces are ignored, and so is a minus sign. *)
Theorem cleanAndParse_ignores_other_characters (before s after : string) :
  s <> "" ->
  string_forall (fun c => negb (is_price_char c)) before = true ->
  string_forall (fun c => negb (is_price_char c)) after = true ->
  cleanAndParse (Some (before ++ s ++ after)) = cleanAndParse (Some s).
Proof.
  intros Hne Hb Ha.
  assert (Hwhole : before ++ s ++ after <> "").
  { destruct before; cbn [append]; [ | discriminate].
    apply append_nonempty, Hne. }
  rewrite (cleanAndParse_nonempty s Hne), (cleanAndParse_nonempty _ Hwhole).
  rewrite !keep_chars_app, (keep_chars_none _ before Hb),
    (keep_chars_none _ after Ha), append_empty_r.
  reflexivity.
Qed.

Lemma cleanAndParse_ignores_other_characters_witness :
  cleanAndParse (Some "-1.250,50 TL") = cleanAndParse (Some "1.250,50").
Proof.
  exact (cleanAndParse_ignores_other_characters "-" "1.250,50" " TL"
           ltac:(discriminate) eq_refl eq_refl).
Defined.

(** ** Signs *)

Lemma binary_round_aux_sign (m e : Z) (l : location) :
  sign_bit (binary_round_aux prec emax false m e l) = false.
Proof.
  unfold binary_round_aux.
  destruct (shr_fexp prec emax m e l) as [mrs e'].
  destruct (shr_fexp prec emax _ e' loc_Exact) as [mrs' e''].
  destruct (shr_m mrs'); [reflexivity | | reflexivity].
  destruct (e'' <=? emax - prec); reflexivity.
Qed.

Lemma of_decimal_sign (m x : Z) : sign_bit (of_decimal false m x) = false.
Proof.
  unfold of_decimal. destruct m as [| p | p]; try reflexivity.
  destruct (0 <=? x) eqn:Hx.
  - apply Z.leb_le in Hx. cbn [cond_Zopp].
    assert (Hpos : 0 < Z.pos p * 10 ^ x)
      by (apply Z.mul_pos_pos; [lia | apply Z.pow_pos_nonneg; lia]).
    destruct (Z.pos p * 10 ^ x) as [| n | n]; try lia.
    unfold binary_normalize, binary_round.
    destruct (shl_align _ _ _) as [mz ez]. apply binary_round_aux_sign.
  - destruct (SFdiv_core_binary prec emax (Z.pos p) 0 (10 ^ (- x)) 0)
      as [[q e] l].
    apply binary_round_aux_sign.
Qed.

Lemma parse_decimal_sign (s : string) : sign_bit (parse_decimal false s) = false.
Proof.
  unfold parse_decimal.
  destruct (span is_digit s) as [ip r1].
  destruct (match r1 with
            | String "." t => span is_digit t
            | _ => ("", r1)
            end) as [fp r2].
  destruct (ip ++ fp); [reflexivity | apply of_decimal_sign].
Qed.

(** A text of price characters is read without sign, white space or
    [Infinity] coming into play. *)
Lemma parseFloat_price_chars (s : string) :
  string_forall is_price_char s = true -> parseFloat s = parse_decimal false s.
Proof.
  destruct s as [| c r]; [reflexivity | ].
  cbn [string_forall]. intros H. apply andb_true_iff in H as [Hc _].
  unfold is_price_char in Hc.
  destruct (is_digit c) eqn:Hd; [apply parseFloat_digit_head, Hd | ].
  cbn [orb] in Hc. fold (is_separator c) in Hc.
  unfold parseFloat. rewrite (trimStart_separator c r Hc).
  destruct (is_separator_cases c Hc); subst c; reflexivity.
Qed.

Lemma keep_chars_satisfies (q : ascii -> bool) (s : string) :
  string_forall q (keep_chars q s) = true.
Proof.
  induction s as [| a r IH]; [reflexivity | ].
  cbn [keep_chars]. destruct (q a) eqn:E; [ | exact IH].
  cbn [string_forall]. rewrite E, IH. reflexivity.
Qed.

Lemma replace_first_price_chars (s : string) :
  string_forall is_price_char s = true ->
  string_forall is_price_char (replace_first "," "." s) = true.
Proof.
  induction s as [| a r IH]; [reflexivity | ].
  cbn [string_forall replace_first]. intros H.
  apply andb_true_iff in H as [Ha Hr].
  destruct (Ascii.eqb a ","); cbn [string_forall].
  - exact Hr.
  - rewrite Ha. exact (IH Hr).
Qed.

Lemma decimal_point_price_chars (s : string) :
  string_forall is_price_char s = true ->
  string_forall is_price_char (decimal_point s) = true.
Proof.
  intros H. unfold decimal_point.
  destruct (includes "," s && includes "." s).
  - apply replace_first_price_chars, keep_chars_forall, H.
  - destruct (includes "," s); [apply replace_first_price_chars | ]; exact H.
Qed.

Lemma cleanAndParse_sign (str : option string) :
  sign_bit (cleanAndParse str) = false.
Proof.
  destruct str as [[| a r] | ]; try reflexivity.
  rewrite cleanAndParse_nonempty by discriminate.
  rewrite parseFloat_price_chars
    by apply decimal_point_price_chars, keep_chars_satisfies.
  apply parse_decimal_sign.
Qed.

(** X6: No input makes [cleanAndParse] return a negative Number or [-0]: a
    minus sign is stripped with the other characters.  So the [price] and
    the [original_price] of a product are never negative either. *)
Theorem prices_are_never_negative :
  (forall str : option string, sign_bit (cleanAndParse str) = false) /\
  (forall (platformKey : string) (p : RawItem),
      sign_bit (price (processItem platformKey p)) = false /\
      sign_bit (original_price (processItem platformKey p)) = false).
Proof.
  split; [exact cleanAndParse_sign | ].
  intros platformKey p.
  destruct (processItem_fields platformKey p) as [_ [Hp Ho]].
  rewrite Hp, Ho. split; [apply cleanAndParse_sign | ].
  destruct (strict_eq _ _); apply cleanAndParse_sign.
Qed.

(** ** Items the filter can never keep *)

Lemma gt_nan_l (x : number) : gt NaN x = false.
Proof. unfold gt, SFltb. destruct x; reflexivity. Qed.

Lemma no_digit_price_not_kept (platformKey : string) (p : RawItem) :
  no_digit (priceStr p) = true ->
  keeps (processItem platformKey p) = false.
Proof.
  intros H. unfold keeps.
  destruct (processItem_fields platformKey p) as [_ [Hp _]]. rewrite Hp.
  destruct (priceStr p) as [| a r] eqn:E.
  - rewrite andb_false_r. reflexivity.
  - rewrite (cleanAndParse_no_digit (String a r)), gt_nan_l;
      [apply andb_false_r | discriminate | exact H].
Qed.

Lemma not_kept_singleton (platformKey : string) (p : RawItem) :
  keeps (processItem platformKey p) = false ->
  validProducts platformKey [p] = [].
Proof.
  intros Hk. unfold validProducts. cbn [map filter]. rewrite Hk. reflexivity.
Qed.

(** X7: A raw item whose price text holds no digit is dropped, whatever its
    original price text: the price is 0 (empty text) or NaN, and neither is
    greater than 0. *)
Theorem price_without_digit_is_dropped (platformKey : string) (p : RawItem) :
  no_digit (priceStr p) = true ->
  keeps (processItem platformKey p) = false /\
  validProducts platformKey [p] = [].
Proof.
  intros H. pose proof (no_digit_price_not_kept platformKey p H) as Hk.
  split; [exact Hk | apply not_kept_singleton, Hk].
Qed.

Lemma price_without_digit_is_dropped_witness :
  no_digit (priceStr (priced "Tükendi" "160 TL")) = true /\
  validProducts "trendyol" [priced "Tükendi" "160 TL"] = [].
Proof.
  split; [reflexivity | ].
  exact (proj2 (price_without_digit_is_dropped
                  "trendyol" (priced "Tükendi" "160 TL") eq_refl)).
Defined.

(** A raw item whose two price texts are the same is dropped. *)
Lemma same_price_texts_dropped (platformKey : string) (p : RawItem) :
  orgPriceStr p = priceStr p -> keeps (processItem platformKey p) = false.
Proof.
  intros H.
  destruct (processItem_fields platformKey p) as [Hd [Hp Ho]].
  rewrite H in Ho.
  assert (Heq : original_price (processItem platformKey p)
                = price (processItem platformKey p)).
  { rewrite Ho, Hp. destruct (strict_eq _ _); reflexivity. }
  unfold keeps. rewrite Hd, Heq. unfold code_discount.
  rewrite gt_irrefl. cbn [andb]. rewrite ge_zero_40. reflexivity.
Qed.

Lemma extract_item_prices (v : Variant) (el : Element) :
  priceStr (extract_item v el) = fst (prices v el) /\
  orgPriceStr (extract_item v el) = snd (prices v el).
Proof. unfold extract_item. destruct (prices v el). split; reflexivity. Qed.

Lemma prices_with_sale_selector (v : Variant) (el : Element) :
  sale_price_text el <> "" ->
  prices v el =
  (sale_price_text el, or_else (original_price_text el) (sale_price_text el)).
Proof.
  intros H. destruct v; cbn [prices]; unfold prices_server, prices_part000.
  - destruct (sale_price_text el) as [| a r]; [congruence | ].
    cbn [truthy]. destruct (original_price_text el); reflexivity.
  - reflexivity.
Qed.

(** X8: A card with a sale price but no original-price element gets its sale
    price text as original price text, in both files, so its discount is 0
    and it is dropped. *)
Theorem card_without_original_price_is_dropped
        (v : Variant) (platformKey : string) (el : Element) :
  sale_price_text el <> "" ->
  original_price_text el = "" ->
  orgPriceStr (extract_item v el) = priceStr (extract_item v el) /\
  discount_rate (processItem platformKey (extract_item v el)) = zero /\
  validProducts platformKey [extract_item v el] = [].
Proof.
  intros Hsale Horg.
  destruct (extract_item_prices v el) as [Hp Ho].
  assert (Heq : orgPriceStr (extract_item v el) = priceStr (extract_item v el)).
  { rewrite Hp, Ho, (prices_with_sale_selector v el Hsale), Horg. reflexivity. }
  split; [exact Heq | ].
  pose proof (same_price_texts_dropped platformKey _ Heq) as Hk.
  split.
  - destruct (processItem_fields platformKey (extract_item v el))
      as [Hd [Hpr Hor]].
    rewrite Heq in Hor.
    rewrite Hd. unfold code_discount.
    replace (original_price (processItem platformKey (extract_item v el)))
      with (price (processItem platformKey (extract_item v el)))
      by (rewrite Hor, Hpr; destruct (strict_eq _ _); reflexivity).
    rewrite gt_irrefl. reflexivity.
  - unfold validProducts. cbn [map filter]. rewrite Hk. reflexivity.
Qed.

Lemma card_without_original_price_is_dropped_witness :
  validProducts "trendyol"
    [extract_item ServerJs
       {| innerText := "Kazak 80 TL";
          getAttribute := fun _ => None;
          querySelector := fun sel =>
            if String.eqb sel ".prc-box-sllng"
            then Some {| node_innerText := "80 TL";
                         node_href := ""; node_src := "" |}
            else None |}] = [].
Proof.
  refine (proj2 (proj2 (card_without_original_price_is_dropped
                          ServerJs "trendyol" _ _ _)));
    [discriminate | reflexivity].
Defined.

(** X9: A card on which no price is found (no sale-price element and, in
    [server.js], no currency-tagged token in its text) gives an empty
    price text and is dropped, whatever original price it shows. *)
Theorem card_without_price_is_dropped
        (v : Variant) (platformKey : string) (el : Element) :
  sale_price_text el = "" ->
  match_prices (innerText el) = None ->
  priceStr (extract_item v el) = "" /\
  validProducts platformKey [extract_item v el] = [].
Proof.
  intros Hsale Hmatch.
  assert (Hp : priceStr (extract_item v el) = "").
  { rewrite (proj1 (extract_item_prices v el)).
    destruct v; cbn [prices]; unfold prices_server, prices_part000;
      rewrite Hsale, ?Hmatch; reflexivity. }
  split; [exact Hp | ].
  apply not_kept_singleton, no_digit_price_not_kept. rewrite Hp. reflexivity.
Qed.

Lemma card_without_price_is_dropped_witness :
  sale_price_text (bare_card "Tükendi" None) = "" /\
  match_prices (innerText (bare_card "Tükendi" None)) = None /\
  validProducts "trendyol" [extract_item ServerJs (bare_card "Tükendi" None)]
  = [].
Proof.
  split; [reflexivity | split; [reflexivity | ]].
  exact (proj2 (card_without_price_is_dropped
                  ServerJs "trendyol" (bare_card "Tükendi" None)
                  eq_refl eq_refl)).
Defined.

(** ** What every kept product satisfies *)

(** X10: Every product that passes the filter has [original_price > price > 0]
    and a discount of at least 40, carries the platform key it was scraped
    under, and comes from a raw item whose link is both its [product_url]
    and its [external_id]. *)
Theorem kept_product_invariant (platformKey : string)
        (products : list RawItem) (q : Product) :
  In q (validProducts platformKey products) ->
  gt (original_price q) (price q) = true /\
  gt (price q) zero = true /\
  ge (discount_rate q) (of_Z 40) = true /\
  platform q = platformKey /\
  exists p : RawItem,
    In p products /\ product_url q = link p /\ external_id q = link p /\
    p_title q = title p /\ image_url q = img p.
Proof.
  unfold validProducts. rewrite filter_In, in_map_iff.
  intros [[p [<- Hin]] Hk].
  unfold keeps in Hk. apply andb_true_iff in Hk as [Hge Hpos].
  destruct (processItem_fields platformKey p) as [Hd _].
  repeat split; try assumption.
  - rewrite Hd in Hge. unfold code_discount in Hge.
    destruct (gt (original_price _) (price _)); [reflexivity | ].
    cbn [andb] in Hge. rewrite ge_zero_40 in Hge. discriminate.
  - exists p. repeat split. exact Hin.
Qed.

Lemma kept_product_invariant_witness :
  In (processItem "temu" (priced "80 TL" "160 TL"))
     (validProducts "temu" [priced "90 TL" "100 TL"; priced "80 TL" "160 TL"]) /\
  gt (original_price (processItem "temu" (priced "80 TL" "160 TL")))
     (price (processItem "temu" (priced "80 TL" "160 TL"))) = true.
Proof.
  assert (H : In (processItem "temu" (priced "80 TL" "160 TL"))
                 (validProducts "temu" [priced "90 TL" "100 TL";
                                        priced "80 TL" "160 TL"]))
    by (left; reflexivity).
  split; [exact H | ].
  exact (proj1 (kept_product_invariant "temu" _ _ H)).
Defined.

(** ** The raw item of a card *)

(** X11: Whatever the card, its link starts with [http] (so it is never empty):
    either the link found does, or the trendyol origin is put before it. *)
Theorem link_is_absolute (v : Variant) (el : Element) :
  startsWith "http" (link (extract_item v el)) = true /\
  link (extract_item v el) <> "".
Proof.
  rewrite extract_item_link. unfold fix_link.
  destruct (startsWith "http" (raw_link el)) eqn:E.
  - split; [exact E | ]. intros H. rewrite H in E. discriminate.
  - split; [reflexivity | discriminate].
Qed.

(** X12: In both files the original price text is empty only when the price
    text is: an absent original price is replaced by the price text. *)
Theorem original_price_text_defaults_to_price (v : Variant) (el : Element) :
  orgPriceStr (extract_item v el) = "" -> priceStr (extract_item v el) = "".
Proof.
  destruct (extract_item_prices v el) as [-> ->].
  destruct v; cbn [prices]; unfold prices_server, prices_part000.
  - destruct (if truthy (sale_price_text el) then _ else _) as [pr og].
    cbn [fst snd]. destruct og; cbn [truthy]; [auto | discriminate].
  - cbn [fst snd]. destruct (original_price_text el); cbn [or_else];
      [auto | discriminate].
Qed.

Lemma original_price_text_defaults_to_price_witness :
  orgPriceStr (extract_item ServerJs (bare_card "Tükendi" None)) = "" /\
  priceStr (extract_item ServerJs (bare_card "Tükendi" None)) = "".
Proof.
  split; [reflexivity | ].
  exact (original_price_text_defaults_to_price
           ServerJs (bare_card "Tükendi" None) eq_refl).
Defined.

(** X13: The two files extract the same raw item from every card that has a
    sale-price element, and from every card whose text holds no
    currency-tagged token: they can differ only where the scan of
    [server.js] finds something. *)
Theorem variants_agree_outside_fallback (el : Element) :
  sale_price_text el <> "" \/ match_prices (innerText el) = None ->
  extract_item ServerJs el = extract_item Part000 el.
Proof.
  intros H.
  assert (Hp : prices ServerJs el = prices Part000 el).
  { destruct H as [H | H].
    - rewrite !prices_with_sale_selector by exact H. reflexivity.
    - cbn [prices]. unfold prices_server, prices_part000. rewrite H.
      destruct (sale_price_text el) as [| a r]; cbn [truthy];
        destruct (original_price_text el); reflexivity. }
  unfold extract_item. rewrite Hp. reflexivity.
Qed.

Lemma variants_agree_outside_fallback_witness :
  extract_item ServerJs (priced_card "80 TL" "160 TL" None)
  = extract_item Part000 (priced_card "80 TL" "160 TL" None) /\
  extract_item ServerJs (bare_card "Tükendi" None)
  = extract_item Part000 (bare_card "Tükendi" None).
Proof.
  split.
  - apply variants_agree_outside_fallback. left. discriminate.
  - apply variants_agree_outside_fallback. right. reflexivity.
Defined.

(** ** The tokens of the price scan *)

Lemma span_head (p : ascii -> bool) (s y : string) (a : ascii) (x : string) :
  span p s = (String a x, y) -> p a = true.
Proof.
  destruct s as [| c r]; [discriminate | ].
  cbn [span]. destruct (p c) eqn:E.
  - destruct (span p r). intros H. inversion H; subst. exact E.
  - discriminate.
Qed.

Lemma match_at_head (s m rest : string) :
  match_at s = Some (m, rest) ->
  exists c r, m = String c r /\ is_price_char c = true.
Proof.
  unfold match_at. destruct (span is_price_char s) as [num r1] eqn:E.
  destruct num as [| d num']; [discriminate | ].
  apply span_head in E.
  destruct (currency_marker_width _); [discriminate | ].
  intros H. inversion H; subst. cbn [append]. eauto.
Qed.

Lemma match_all_heads (fuel : nat) :
  forall (s m : string),
    In m (match_all fuel s) ->
    exists c r, m = String c r /\ is_price_char c = true.
Proof.
  induction fuel as [| f IH]; intros s m Hin; [destruct Hin | ].
  destruct s as [| a r]; [destruct Hin | ].
  cbn [match_all] in Hin.
  destruct (match_at (String a r)) as [[m' rest] | ] eqn:E.
  - destruct Hin as [<- | Hin]; [exact (match_at_head _ _ _ E) | eauto].
  - eauto.
Qed.

Lemma match_prices_heads (text : string) (tokens : list string) :
  match_prices text = Some tokens ->
  tokens <> [] /\
  forall m, In m tokens ->
            m <> "" /\ exists c r, m = String c r /\ is_price_char c = true.
Proof.
  unfold match_prices.
  destruct (match_all (String.length text) text) as [| m0 ms] eqn:E;
    [discriminate | ].
  intros H. inversion H; subst. split; [discriminate | ].
  intros m Hin. rewrite <- E in Hin.
  destruct (match_all_heads _ _ _ Hin) as [c [r [-> Hc]]].
  split; [discriminate | eauto].
Qed.

(** When the scan finds something, the array is not empty and every token
    in it starts with a digit, a dot or a comma; no token is empty. *)
Theorem match_prices_tokens (text : string) (tokens : list string) :
  match_prices text = Some tokens ->
  tokens <> [] /\
  forall m, In m tokens ->
            m <> "" /\ exists c r, m = String c r /\ is_price_char c = true.
Proof. exact (match_prices_heads text tokens). Qed.

Lemma match_prices_tokens_witness :
  match_prices "Eski fiyat 1.250,50 TL, yeni 28,07 ₼"
  = Some ["1.250,50 TL"; "28,07 ₼"] /\
  ["1.250,50 TL"; "28,07 ₼"] <> [].
Proof.
  assert (H : match_prices "Eski fiyat 1.250,50 TL, yeni 28,07 ₼"
              = Some ["1.250,50 TL"; "28,07 ₼"]) by reflexivity.
  split; [exact H | exact (proj1 (match_prices_tokens _ _ H))].
Defined.

Lemma match_all_no_price_char (fuel : nat) :
  forall s : string,
    string_forall (fun c => negb (is_price_char c)) s = true ->
    match_all fuel s = [].
Proof.
  induction fuel as [| f IH]; intros s H; [reflexivity | ].
  destruct s as [| a r]; [reflexivity | ].
  cbn [string_forall] in H. apply andb_true_iff in H as [Ha Hr].
  apply negb_true_iff in Ha.
  cbn [match_all]. unfold match_at. cbn [span]. rewrite Ha.
  exact (IH r Hr).
Qed.

(** A text without any digit, dot or comma has no token: the scan answers
    [null], whatever currency names the text holds. *)
Theorem match_prices_needs_a_number (text : string) :
  string_forall (fun c => negb (is_price_char c)) text = true ->
  match_prices text = None.
Proof.
  intros H. unfold match_prices.
  rewrite (match_all_no_price_char _ text H). reflexivity.
Qed.

Lemma match_prices_needs_a_number_witness :
  match_prices "Fiyat TL AZN ₼" = None.
Proof. exact (match_prices_needs_a_number "Fiyat TL AZN ₼" eq_refl). Defined.

(** X14: What the scan of [server.js] makes of its tokens when no sale-price
    element is found.  One token: it is the price, and the original price
    is the text of the original-price element when there is one, else the
    token.  Two tokens or more: the last is the price and the first is the
    original price, even when an original-price element is present. *)
Theorem regex_fallback_prices (el : Element) (first : string)
        (more : list string) :
  sale_price_text el = "" ->
  match_prices (innerText el) = Some (first :: more) ->
  priceStr (extract_item ServerJs el) = last more first /\
  orgPriceStr (extract_item ServerJs el) =
    match more with
    | [] => or_else (original_price_text el) first
    | _ => first
    end.
Proof.
  intros Hsale Hmatch.
  assert (Hne : first <> "")
    by (apply (proj2 (match_prices_heads _ _ Hmatch)); left; reflexivity).
  destruct (extract_item_prices ServerJs el) as [-> ->].
  cbn [prices]. unfold prices_server. rewrite Hsale, Hmatch. cbn [truthy].
  destruct more as [| m ms]; cbn [fst snd].
  - split; [reflexivity | ].
    destruct (original_price_text el); cbn [truthy or_else]; reflexivity.
  - split; [reflexivity | ]. destruct first; [congruence | reflexivity].
Qed.

Lemma regex_fallback_prices_witness :
  priceStr (extract_item ServerJs
              {| innerText := "200 TL 120 TL 99 TL";
                 getAttribute := fun _ => None;
                 querySelector := fun sel =>
                   if String.eqb sel ".original-price"
                   then Some {| node_innerText := "250 TL";
                                node_href := ""; node_src := "" |}
                   else None |}) = "99 TL" /\
  orgPriceStr (extract_item ServerJs
                 {| innerText := "200 TL 120 TL 99 TL";
                    getAttribute := fun _ => None;
                    querySelector := fun sel =>
                      if String.eqb sel ".original-price"
                      then Some {| node_innerText := "250 TL";
                                   node_href := ""; node_src := "" |}
                      else None |}) = "200 TL".
Proof.
  refine (regex_fallback_prices _ "200 TL" ["120 TL"; "99 TL"] _ _);
    reflexivity.
Defined.

(** ** The calls of a cycle *)

Lemma setup_returns_calls (v : Variant) (env : Env) (ts : list Event) :
  setup v env = (Returns tt, ts) -> ts = setup_calls v.
Proof.
  unfold setup, call, bind, ret.
  destruct (chromium_launch env), (browser_newContext env), v,
           (context_addCookies env), (context_newPage env) as [[] | ];
    intros H; inversion H; reflexivity.
Qed.

(** When the loop returns, it has sent every product to the store, in
    order. *)
Lemma save_all_returns_calls (env : Env) (prods : list Product) :
  forall (n : nat) (savedItems saved : list (option Product)) (t : list Event),
    save_all env n prods savedItems = (Returns saved, t) ->
    t = map Upsert prods.
Proof.
  induction prods as [| prod rest IH]; intros n savedItems saved t H.
  - cbn in H. inversion H. reflexivity.
  - cbn [save_all] in H. unfold call in H. cbn [bind] in H.
    destruct (store_upsert env n prod) as [reply | e]; [ | discriminate].
    destruct (error reply), (data reply);
      match type of H with
      | (let '(_, _) := ?m in _) = _ =>
          destruct m as [r t'] eqn:E; inversion H; subst;
          apply IH in E; subst; reflexivity
      end.
Qed.

Lemma cycle_success_calls (v : Variant) (env : Env) (platformKey : string)
      (config : ConfigValue) (total filtered saved : nat)
      (prods : list Product) (raw : list RawItem) (t : list Event) :
  cycle v env platformKey config =
    (Returns (SuccessPayload total filtered saved prods raw), t) ->
  exists els savedItems,
    page_elements env (config_selector config) = Returns els /\
    save_all env 0 (validProducts platformKey (map (extract_item v) els)) []
      = (Returns savedItems,
         map Upsert (validProducts platformKey (map (extract_item v) els))) /\
    t = (page_calls config
           ++ map Upsert (validProducts platformKey (map (extract_item v) els)))%list /\
    total = List.length els /\
    filtered = List.length (validProducts platformKey (map (extract_item v) els)) /\
    saved = List.length savedItems /\
    prods = firstn 50 (validProducts platformKey (map (extract_item v) els)) /\
    raw = firstn 10 (map (extract_item v) els).
Proof.
  unfold cycle, call. cbn [bind].
  destruct (page_goto env _); [ | discriminate].
  destruct (page_scroll env); [ | discriminate].
  destruct (page_waitForTimeout env); [ | discriminate].
  destruct (page_elements env _) as [els | e]; [ | discriminate].
  cbn [bind].
  destruct (save_all env 0 _ []) as [[savedItems | e] t'] eqn:E;
    cbn; intros H; inversion H; subst.
  pose proof (save_all_returns_calls _ _ _ _ _ _ E) as Ht. subst t'.
  exists els, savedItems. rewrite length_map.
  repeat split; try reflexivity; [exact E | ].
  rewrite app_nil_r. reflexivity.
Qed.

Lemma scrape_success_inv (v : Variant) (env : Env) (platformKey : string)
      (payload : Payload) (t : list Event) :
  scrape v env platformKey = (Returns payload, t) ->
  payload <> ErrorPayload "Platform not supported" \/ t <> [] ->
  CONFIG_get platformKey <> CfgUndefined /\
  setup v env = (Returns tt, setup_calls v) /\
  browser_close env = Returns tt /\
  exists (r : outcome Payload) (tc : list Event),
    cycle v env platformKey (CONFIG_get platformKey) = (r, tc) /\
    t = (setup_calls v ++ tc ++ [Close])%list /\
    match r with
    | Returns pl => payload = pl
    | Throws message => payload = ErrorPayload message
    end.
Proof.
  unfold scrape. intros H Hnot.
  destruct (CONFIG_get platformKey) as [| c | n] eqn:Ecfg.
  - inversion H; subst. destruct Hnot; congruence.
  - destruct (setup v env) as [[[] | e] ts] eqn:Es; [ | discriminate].
    pose proof (setup_returns_calls _ _ _ Es) as ->.
    cbn [bind] in H. unfold call in H.
    destruct (cycle v env platformKey (CfgEntry c)) as [[pl | e] tc] eqn:Ec;
      cbn in H; destruct (browser_close env) as [[] | e']; inversion H; subst;
      (split; [discriminate | ]); (split; [reflexivity | ]);
      (split; [reflexivity | ]); eexists _, tc; repeat split;
      rewrite ?app_nil_r; reflexivity.
  - destruct (setup v env) as [[[] | e] ts] eqn:Es; [ | discriminate].
    pose proof (setup_returns_calls _ _ _ Es) as ->.
    cbn [bind] in H. unfold call in H.
    destruct (cycle v env platformKey (CfgInherited n)) as [[pl | e] tc] eqn:Ec;
      cbn in H; destruct (browser_close env) as [[] | e']; inversion H; subst;
      (split; [discriminate | ]); (split; [reflexivity | ]);
      (split; [reflexivity | ]); eexists _, tc; repeat split;
      rewrite ?app_nil_r; reflexivity.
Qed.

(** X16: The calls of a cycle that ends in a success response, in order: the
    set-up of the file at hand, the navigation to the configured URL, the
    scroll, the pause of 3000 ms, the extraction with the configured
    selector, one upsert per kept product, and the release of the browser.
    The response counts the cards found and the products kept, and carries
    the first 50 kept products and the first 10 raw items. *)
Theorem success_response_calls (v : Variant) (env : Env) (platformKey : string)
        (total_found filtered_count saved_count : nat)
        (prods : list Product) (raw : list RawItem) (t : list Event) :
  scrape v env platformKey =
    (Returns (SuccessPayload total_found filtered_count saved_count prods raw), t) ->
  exists els : list Element,
    page_elements env (config_selector (CONFIG_get platformKey)) = Returns els /\
    t = (setup_calls v ++ page_calls (CONFIG_get platformKey)
           ++ map Upsert (validProducts platformKey (map (extract_item v) els))
           ++ [Close])%list /\
    total_found = List.length els /\
    filtered_count =
      List.length (validProducts platformKey (map (extract_item v) els)) /\
    prods = firstn 50 (validProducts platformKey (map (extract_item v) els)) /\
    raw = firstn 10 (map (extract_item v) els).
Proof.
  intros H.
  destruct (scrape_success_inv _ _ _ _ _ H ltac:(left; discriminate))
    as [_ [_ [_ [r [tc [Hc [Ht Hr]]]]]]].
  destruct r as [pl | e]; [subst pl | discriminate].
  destruct (cycle_success_calls _ _ _ _ _ _ _ _ _ _ Hc)
    as [els [savedItems [Hels [_ [Htc [Htf [Hfc [_ [Hd Hraw]]]]]]]]].
  exists els. subst tc. rewrite <- app_assoc in Ht. auto 10.
Qed.

Lemma success_response_calls_witness :
  exists els : list Element,
    page_elements (calm [priced_card "80 TL" "160 TL" None])
                  (config_selector (CONFIG_get "temu")) = Returns els /\
    snd (scrape Part000 (calm [priced_card "80 TL" "160 TL" None]) "temu")
    = ([Launch; NewContext; NewPage;
        Goto (Some "https://www.temu.com/az/channel/lightning-deals.html");
        ScrollBy; WaitForTimeout 3000; Evaluate (Some ".goods-item")]
         ++ map Upsert (validProducts "temu" (map (extract_item Part000) els))
         ++ [Close])%list.
Proof.
  destruct (scrape Part000 (calm [priced_card "80 TL" "160 TL" None]) "temu")
    as [r t] eqn:E.
  assert (Hr : exists a b c d e, r = Returns (SuccessPayload a b c d e)).
  { vm_compute in E. inversion E. repeat eexists. }
  destruct Hr as [a [b [c [d [e ->]]]]].
  destruct (success_response_calls _ _ _ _ _ _ _ _ _ E)
    as [els [Hels [Ht _]]].
  exists els. split; [exact Hels | exact Ht].
Defined.

(** ** The store *)

Lemma save_all_total (env : Env) (prods : list Product) :
  (forall n p, exists reply, store_upsert env n p = Returns reply) ->
  forall (n : nat) (savedItems : list (option Product)),
  exists saved,
    save_all env n prods savedItems = (Returns saved, map Upsert prods).
Proof.
  intros Hstore. induction prods as [| prod rest IH]; intros n savedItems.
  - exists savedItems. reflexivity.
  - cbn [save_all]. unfold call. cbn [bind map].
    destruct (Hstore n prod) as [reply ->].
    destruct (error reply), (data reply);
      match goal with
      | |- context [save_all env (S n) rest ?acc] =>
          destruct (IH (S n) acc) as [saved ->]; exists saved; reflexivity
      end.
Qed.

Lemma scrape_of_cycle (v : Variant) (env : Env) (platformKey : string)
      (els : list Element) (payload : Payload) (tc : list Event) :
  CONFIG_get platformKey <> CfgUndefined ->
  browser_answers v env (CONFIG_get platformKey) els ->
  cycle v env platformKey (CONFIG_get platformKey) = (Returns payload, tc) ->
  scrape v env platformKey =
    (Returns payload, (setup_calls v ++ tc ++ [Close])%list).
Proof.
  intros Hcfg [Hsetup [_ [_ [_ [_ Hclose]]]]] Hc. unfold scrape.
  destruct (CONFIG_get platformKey) as [| c | n]; [congruence | | ];
    rewrite Hsetup; cbn [bind]; rewrite Hc; unfold call; rewrite Hclose;
    reflexivity.
Qed.

(** X17: A cycle in which the browser and the page answer ends in a success
    response as soon as no upsert throws: an upsert answered with an error
    does not stop the loop and does not fail the cycle.  Every kept
    product is sent to the store, and the counts of cards and of kept
    products do not depend on the store. *)
Theorem store_errors_do_not_fail_the_cycle
        (v : Variant) (env : Env) (platformKey : string) (els : list Element) :
  CONFIG_get platformKey <> CfgUndefined ->
  browser_answers v env (CONFIG_get platformKey) els ->
  (forall n p, exists reply, store_upsert env n p = Returns reply) ->
  exists saved_count : nat,
    scrape v env platformKey =
    (Returns
       (SuccessPayload
          (List.length els)
          (List.length (validProducts platformKey (map (extract_item v) els)))
          saved_count
          (firstn 50 (validProducts platformKey (map (extract_item v) els)))
          (firstn 10 (map (extract_item v) els))),
     (setup_calls v ++ page_calls (CONFIG_get platformKey)
        ++ map Upsert (validProducts platformKey (map (extract_item v) els))
        ++ [Close])%list).
Proof.
  intros Hcfg Hb Hstore.
  destruct (save_all_total env
              (validProducts platformKey (map (extract_item v) els))
              Hstore 0%nat []) as [saved Hsave].
  exists (List.length saved).
  rewrite (scrape_of_cycle v env platformKey els
             (SuccessPayload
                (List.length els)
                (List.length (validProducts platformKey (map (extract_item v) els)))
                (List.length saved)
                (firstn 50 (validProducts platformKey (map (extract_item v) els)))
                (firstn 10 (map (extract_item v) els)))
             (page_calls (CONFIG_get platformKey)
                ++ map Upsert (validProducts platformKey (map (extract_item v) els)))
             Hcfg Hb).
  - rewrite <- app_assoc. reflexivity.
  - destruct Hb as [_ [Hgoto [Hscroll [Hwait [Hels _]]]]].
    unfold cycle, call. cbn [bind].
    rewrite Hgoto, Hscroll, Hwait, Hels. cbn [bind].
    rewrite Hsave. cbn. rewrite length_map, app_nil_r. reflexivity.
Qed.

Lemma browser_answers_page_with (v : Variant) (config : ConfigValue)
      (cards : list Element) (answer : nat -> Product -> outcome UpsertReply) :
  browser_answers v (page_with cards answer) config cards.
Proof. destruct v; repeat split. Qed.

Lemma store_errors_do_not_fail_the_cycle_witness :
  exists saved_count : nat,
    scrape ServerJs
           (page_with [priced_card "80 TL" "160 TL" None]
                      (refused "permission denied for table products"))
           "trendyol"
    = (Returns
         (SuccessPayload 1 1 saved_count
            [processItem "trendyol"
               (extract_item ServerJs (priced_card "80 TL" "160 TL" None))]
            [extract_item ServerJs (priced_card "80 TL" "160 TL" None)]),
       [Launch; NewContext; AddCookies; NewPage;
        Goto (Some "https://www.trendyol.com/sr?wc=103328&fl=en-cok-one-cikanlar");
        ScrollBy; WaitForTimeout 3000; Evaluate (Some ".product-card-jfy");
        Upsert (processItem "trendyol"
                  (extract_item ServerJs (priced_card "80 TL" "160 TL" None)));
        Close]).
Proof.
  exact (store_errors_do_not_fail_the_cycle
           ServerJs
           (page_with [priced_card "80 TL" "160 TL" None]
                      (refused "permission denied for table products"))
           "trendyol" [priced_card "80 TL" "160 TL" None]
           ltac:(discriminate)
           (browser_answers_page_with _ _ _ _)
           (fun n p => ex_intro _ _ eq_refl)).
Defined.

Lemma save_all_counts_answers (env : Env) (prods : list Product) :
  (forall n p, exists rows,
      store_upsert env n p = Returns {| data := Some rows; error := None |}) ->
  forall (n : nat) (savedItems saved : list (option Product)) (t : list Event),
    save_all env n prods savedItems = (Returns saved, t) ->
    List.length saved = (List.length savedItems + List.length prods)%nat.
Proof.
  intros Hstore. induction prods as [| prod rest IH];
    intros n savedItems saved t H.
  - cbn in H. inversion H; subst. cbn. lia.
  - cbn [save_all] in H. unfold call in H. cbn [bind] in H.
    destruct (Hstore n prod) as [rows Hr]. rewrite Hr in H. cbn in H.
    destruct (save_all env (S n) rest _) as [r t'] eqn:E.
    inversion H; subst. apply IH in E.
    rewrite E, length_app. cbn. lia.
Qed.

Lemma save_all_skips_errors (env : Env) (prods : list Product) :
  (forall n p, exists reply message,
      store_upsert env n p = Returns reply /\ error reply = Some message) ->
  forall (n : nat) (savedItems saved : list (option Product)) (t : list Event),
    save_all env n prods savedItems = (Returns saved, t) ->
    saved = savedItems.
Proof.
  intros Hstore. induction prods as [| prod rest IH];
    intros n savedItems saved t H.
  - cbn in H. inversion H; subst. reflexivity.
  - cbn [save_all] in H. unfold call in H. cbn [bind] in H.
    destruct (Hstore n prod) as [reply [message [Hr He]]].
    rewrite Hr in H. rewrite He in H.
    destruct (save_all env (S n) rest savedItems) as [r t'] eqn:E.
    inversion H; subst. exact (IH _ _ _ _ E).
Qed.

Lemma scrape_success_saved (v : Variant) (env : Env) (platformKey : string)
      (total filtered saved : nat) (prods : list Product) (raw : list RawItem)
      (t : list Event) :
  scrape v env platformKey =
    (Returns (SuccessPayload total filtered saved prods raw), t) ->
  exists (valid : list Product) (savedItems : list (option Product))
         (ts : list Event),
    save_all env 0 valid [] = (Returns savedItems, ts) /\
    filtered = List.length valid /\ saved = List.length savedItems.
Proof.
  intros H.
  destruct (scrape_success_inv _ _ _ _ _ H ltac:(left; discriminate))
    as [_ [_ [_ [r [tc [Hc [_ Hr]]]]]]].
  destruct r as [pl | e]; [subst pl | discriminate].
  destruct (cycle_success_calls _ _ _ _ _ _ _ _ _ _ Hc)
    as [els [savedItems [_ [Hsave [_ [_ [Hfc [Hsc _]]]]]]]].
  do 3 eexists. split; [exact Hsave | split; assumption].
Qed.

(** X18: [saved_count] counts the upserts answered without error, not the rows
    written: when the store answers every upsert without error, be it with
    an empty array because the row was already there, [saved_count] equals
    [filtered_count]. *)
Theorem saved_count_counts_answers_without_error
        (v : Variant) (env : Env) (platformKey : string)
        (total_found filtered_count saved_count : nat)
        (prods : list Product) (raw : list RawItem) (t : list Event) :
  (forall n p, exists rows,
      store_upsert env n p = Returns {| data := Some rows; error := None |}) ->
  scrape v env platformKey =
    (Returns (SuccessPayload total_found filtered_count saved_count prods raw), t) ->
  saved_count = filtered_count.
Proof.
  intros Hstore H.
  destruct (scrape_success_saved _ _ _ _ _ _ _ _ _ H)
    as [valid [savedItems [ts [Hsave [-> ->]]]]].
  apply (save_all_counts_answers env valid Hstore) in Hsave.
  exact Hsave.
Qed.

Lemma saved_count_counts_answers_without_error_witness :
  scrape ServerJs
         (page_with [priced_card "80 TL" "160 TL" None] already_present)
         "trendyol"
  = (Returns
       (SuccessPayload 1 1 1
          [processItem "trendyol"
             (extract_item ServerJs (priced_card "80 TL" "160 TL" None))]
          [extract_item ServerJs (priced_card "80 TL" "160 TL" None)]),
     [Launch; NewContext; AddCookies; NewPage;
      Goto (Some "https://www.trendyol.com/sr?wc=103328&fl=en-cok-one-cikanlar");
      ScrollBy; WaitForTimeout 3000; Evaluate (Some ".product-card-jfy");
      Upsert (processItem "trendyol"
                (extract_item ServerJs (priced_card "80 TL" "160 TL" None)));
      Close]) /\
  (1 = 1)%nat.
Proof.
  assert (H : scrape ServerJs
         (page_with [priced_card "80 TL" "160 TL" None] already_present)
         "trendyol"
  = (Returns
       (SuccessPayload 1 1 1
          [processItem "trendyol"
             (extract_item ServerJs (priced_card "80 TL" "160 TL" None))]
          [extract_item ServerJs (priced_card "80 TL" "160 TL" None)]),
     [Launch; NewContext; AddCookies; NewPage;
      Goto (Some "https://www.trendyol.com/sr?wc=103328&fl=en-cok-one-cikanlar");
      ScrollBy; WaitForTimeout 3000; Evaluate (Some ".product-card-jfy");
      Upsert (processItem "trendyol"
                (extract_item ServerJs (priced_card "80 TL" "160 TL" None)));
      Close])) by (vm_compute; reflexivity).
  split; [exact H | ].
  eapply saved_count_counts_answers_without_error. 2: exact H.
  intros n p. exists []. reflexivity.
Defined.

(** X19: When the store answers every upsert with an error, a success response
    has [saved_count = 0]. *)
Theorem refused_rows_are_not_counted
        (v : Variant) (env : Env) (platformKey : string)
        (total_found filtered_count saved_count : nat)
        (prods : list Product) (raw : list RawItem) (t : list Event) :
  (forall n p, exists reply message,
      store_upsert env n p = Returns reply /\ error reply = Some message) ->
  scrape v env platformKey =
    (Returns (SuccessPayload total_found filtered_count saved_count prods raw), t) ->
  saved_count = 0%nat.
Proof.
  intros Hstore H.
  destruct (scrape_success_saved _ _ _ _ _ _ _ _ _ H)
    as [valid [savedItems [ts [Hsave [_ ->]]]]].
  apply (save_all_skips_errors env valid Hstore) in Hsave.
  subst. reflexivity.
Qed.

Lemma refused_rows_are_not_counted_witness :
  exists t,
    scrape Part000
           (page_with [priced_card "80 TL" "160 TL" None] (refused "timeout"))
           "trendyol"
    = (Returns
         (SuccessPayload 1 1 0
            [processItem "trendyol"
               (extract_item Part000 (priced_card "80 TL" "160 TL" None))]
            [extract_item Part000 (priced_card "80 TL" "160 TL" None)]), t) /\
    (0 = 0)%nat.
Proof.
  eexists.
  assert (H : scrape Part000
           (page_with [priced_card "80 TL" "160 TL" None] (refused "timeout"))
           "trendyol"
    = (Returns
         (SuccessPayload 1 1 0
            [processItem "trendyol"
               (extract_item Part000 (priced_card "80 TL" "160 TL" None))]
            [extract_item Part000 (priced_card "80 TL" "160 TL" None)]),
       [Launch; NewContext; NewPage;
        Goto (Some "https://www.trendyol.com/sr?wc=103328&fl=en-cok-one-cikanlar");
        ScrollBy; WaitForTimeout 3000; Evaluate (Some ".product-card-jfy");
        Upsert (processItem "trendyol"
                  (extract_item Part000 (priced_card "80 TL" "160 TL" None)));
        Close])) by (vm_compute; reflexivity).
  split; [exact H | ].
  eapply refused_rows_are_not_counted. 2: exact H.
  intros n p. do 2 eexists. split; reflexivity.
Defined.

(** ** The size and the content of a success response *)

Lemma in_firstn {A : Type} (n : nat) (l : list A) (x : A) :
  In x (firstn n l) -> In x l.
Proof.
  intros H. rewrite <- (firstn_skipn n l). apply in_or_app. left. exact H.
Qed.

(** X20: A success response never carries more than 50 products nor more than
    10 raw items: [data] holds [min 50 filtered_count] products,
    [debug_raw_data] holds [min 10 total_found] raw items, and every
    product of [data] passed the filter and bears the requested key. *)
Theorem success_response_is_truncated
        (v : Variant) (env : Env) (platformKey : string)
        (total_found filtered_count saved_count : nat)
        (prods : list Product) (raw : list RawItem) (t : list Event) :
  scrape v env platformKey =
    (Returns (SuccessPayload total_found filtered_count saved_count prods raw), t) ->
  List.length prods = Nat.min 50 filtered_count /\
  List.length raw = Nat.min 10 total_found /\
  forall q, In q prods -> keeps q = true /\ platform q = platformKey.
Proof.
  intros H.
  destruct (scrape_success_inv _ _ _ _ _ H ltac:(left; discriminate))
    as [_ [_ [_ [r [tc [Hc [_ Hr]]]]]]].
  destruct r as [pl | e]; [subst pl | discriminate].
  destruct (cycle_success_calls _ _ _ _ _ _ _ _ _ _ Hc)
    as [els [savedItems [_ [_ [_ [-> [-> [_ [-> ->]]]]]]]]].
  rewrite !length_firstn, length_map.
  split; [reflexivity | split; [reflexivity | ]].
  intros q Hq. apply in_firstn in Hq. unfold validProducts in Hq.
  apply filter_In in Hq as [Hq Hk]. split; [exact Hk | ].
  apply in_map_iff in Hq as [p [<- _]]. reflexivity.
Qed.

Lemma success_response_is_truncated_witness :
  exists prods raw t,
    scrape ServerJs
           (calm (repeat (priced_card "80 TL" "160 TL" None) 60)) "trendyol"
    = (Returns (SuccessPayload 60 60 60 prods raw), t) /\
    List.length prods = 50%nat /\ List.length raw = 10%nat.
Proof.
  destruct (scrape ServerJs
              (calm (repeat (priced_card "80 TL" "160 TL" None) 60)) "trendyol")
    as [r t] eqn:E.
  assert (Hr : exists prods raw, r = Returns (SuccessPayload 60 60 60 prods raw)).
  { vm_compute in E. inversion E. do 2 eexists. reflexivity. }
  destruct Hr as [prods [raw ->]].
  exists prods, raw, t. split; [reflexivity | ].
  destruct (success_response_is_truncated _ _ _ _ _ _ _ _ _ E) as [H1 [H2 _]].
  split; assumption.
Defined.

(** ** Errors inside and outside the [try] block *)

(** X21: A key that is neither a registered platform nor a property name of
    [Object.prototype] is answered with ['Platform not supported'] without
    a single call: no browser is launched. *)
Theorem unregistered_key_is_rejected_without_a_call
        (v : Variant) (env : Env) (platformKey : string) :
  ~ In platformKey (map fst CONFIG) ->
  ~ In platformKey Object_prototype_keys ->
  scrape v env platformKey =
  (Returns (ErrorPayload "Platform not supported"), []).
Proof.
  intros Hown Hproto. apply scrape_undefined_key, CONFIG_get_undefined. split.
  - cbn in Hown. cbn [own_property CONFIG].
    destruct (String.eqb_spec "trendyol" platformKey); [tauto | ].
    destruct (String.eqb_spec "temu" platformKey); [tauto | reflexivity].
  - apply not_true_is_false. intros Hex.
    apply existsb_exists in Hex as [k [Hin Hk]].
    apply String.eqb_eq in Hk. subst k. exact (Hproto Hin).
Qed.

Lemma unregistered_key_is_rejected_without_a_call_witness :
  scrape ServerJs (calm []) "hepsiburada" =
  (Returns (ErrorPayload "Platform not supported"), []).
Proof.
  apply unregistered_key_is_rejected_without_a_call;
    cbn; intuition discriminate.
Defined.

(** X22: When the set-up has gone through and [page.goto] throws, the response
    is the error payload with the message thrown; the page is not read, the
    store is not called, and the browser is closed. *)
Theorem navigation_failure_response
        (v : Variant) (env : Env) (platformKey message : string) :
  CONFIG_get platformKey <> CfgUndefined ->
  setup v env = (Returns tt, setup_calls v) ->
  page_goto env (config_url (CONFIG_get platformKey)) = Throws message ->
  browser_close env = Returns tt ->
  scrape v env platformKey =
  (Returns (ErrorPayload message),
   (setup_calls v ++ [Goto (config_url (CONFIG_get platformKey)); Close])%list).
Proof.
  intros Hcfg Hsetup Hgoto Hclose. unfold scrape.
  destruct (CONFIG_get platformKey) as [| c | n]; [congruence | | ];
    rewrite Hsetup; cbn [bind]; unfold cycle, call; cbn [bind];
    rewrite Hgoto, Hclose; reflexivity.
Qed.

Lemma navigation_failure_response_witness :
  scrape ServerJs (navigation_fails "page.goto: Timeout 60000ms exceeded.")
         "trendyol"
  = (Returns (ErrorPayload "page.goto: Timeout 60000ms exceeded."),
     [Launch; NewContext; AddCookies; NewPage;
      Goto (Some "https://www.trendyol.com/sr?wc=103328&fl=en-cok-one-cikanlar");
      Close]).
Proof.
  apply (navigation_failure_response
           ServerJs (navigation_fails "page.goto: Timeout 60000ms exceeded.")
           "trendyol"); [discriminate | reflexivity | reflexivity | reflexivity].
Defined.

(** X23: Any error thrown in the [try] block (by the page or by an upsert)
    becomes the error payload of the response, after [browser.close()]. *)
Theorem error_in_try_block_becomes_payload
        (v : Variant) (env : Env) (platformKey message : string)
        (tc : list Event) :
  CONFIG_get platformKey <> CfgUndefined ->
  setup v env = (Returns tt, setup_calls v) ->
  cycle v env platformKey (CONFIG_get platformKey) = (Throws message, tc) ->
  browser_close env = Returns tt ->
  scrape v env platformKey =
  (Returns (ErrorPayload message), (setup_calls v ++ tc ++ [Close])%list).
Proof.
  intros Hcfg Hsetup Hc Hclose. unfold scrape.
  destruct (CONFIG_get platformKey) as [| c | n]; [congruence | | ];
    rewrite Hsetup; cbn [bind]; rewrite Hc; unfold call; cbn;
    rewrite Hclose, app_nil_r; reflexivity.
Qed.

(** X24: When [browser.close()] throws, its error leaves [scrape], whatever the
    [try] block had produced: a success response is lost. *)
Theorem close_failure_escapes
        (v : Variant) (env : Env) (platformKey message : string) :
  CONFIG_get platformKey <> CfgUndefined ->
  setup v env = (Returns tt, setup_calls v) ->
  browser_close env = Throws message ->
  exists t, scrape v env platformKey = (Throws message, (t ++ [Close])%list).
Proof.
  intros Hcfg Hsetup Hclose. unfold scrape.
  destruct (CONFIG_get platformKey) as [| c | n]; [congruence | | ];
    rewrite Hsetup; cbn [bind];
    match goal with
    | |- context [try_catch ?b ?h] => destruct (try_catch b h) as [r tb]
    end;
    unfold call; cbn [try_finally]; rewrite Hclose;
    exists (setup_calls v ++ tb)%list; rewrite app_assoc; reflexivity.
Qed.

Lemma close_failure_escapes_witness :
  exists t,
    scrape ServerJs
           (close_fails [priced_card "80 TL" "160 TL" None]
                        "browser.close: Connection closed")
           "trendyol"
    = (Throws "browser.close: Connection closed", (t ++ [Close])%list).
Proof.
  apply close_failure_escapes; [discriminate | reflexivity | reflexivity].
Defined.

Lemma error_in_try_block_becomes_payload_witness :
  scrape ServerJs
         (page_with [priced_card "80 TL" "160 TL" None]
                    (unreachable "TypeError: fetch failed"))
         "trendyol"
  = (Returns (ErrorPayload "TypeError: fetch failed"),
     [Launch; NewContext; AddCookies; NewPage;
      Goto (Some "https://www.trendyol.com/sr?wc=103328&fl=en-cok-one-cikanlar");
      ScrollBy; WaitForTimeout 3000; Evaluate (Some ".product-card-jfy");
      Upsert (processItem "trendyol"
                (extract_item ServerJs (priced_card "80 TL" "160 TL" None)));
      Close]).
Proof.
  apply (error_in_try_block_becomes_payload
           ServerJs
           (page_with [priced_card "80 TL" "160 TL" None]
                      (unreachable "TypeError: fetch failed"))
           "trendyol" "TypeError: fetch failed"
           [Goto (Some "https://www.trendyol.com/sr?wc=103328&fl=en-cok-one-cikanlar");
            ScrollBy; WaitForTimeout 3000; Evaluate (Some ".product-card-jfy");
            Upsert (processItem "trendyol"
                      (extract_item ServerJs (priced_card "80 TL" "160 TL" None)))]);
    [discriminate | reflexivity | vm_compute; reflexivity | reflexivity].
Defined.

(** ** One browser per cycle *)

Lemma save_all_inner_calls (env : Env) (prods : list Product) :
  forall (n : nat) (savedItems : list (option Product)),
    Forall (fun ev => is_inner_call ev = true)
           (snd (save_all env n prods savedItems)).
Proof.
  induction prods as [| prod rest IH]; intros n savedItems.
  - constructor.
  - cbn [save_all]. unfold call. cbn [bind].
    destruct (store_upsert env n prod) as [reply | e].
    + destruct (error reply), (data reply);
        match goal with
        | |- context [save_all env (S n) rest ?acc] =>
            specialize (IH (S n) acc);
            destruct (save_all env (S n) rest acc) as [r t]
        end; cbn in *; constructor; auto.
    + cbn. repeat constructor.
Qed.

Lemma cycle_inner_calls (v : Variant) (env : Env) (platformKey : string)
      (config : ConfigValue) :
  Forall (fun ev => is_inner_call ev = true)
         (snd (cycle v env platformKey config)).
Proof.
  unfold cycle, call. cbn [bind].
  destruct (page_goto env _); [ | repeat constructor].
  destruct (page_scroll env); [ | repeat constructor].
  destruct (page_waitForTimeout env); [ | repeat constructor].
  destruct (page_elements env _) as [els | e]; [ | repeat constructor].
  cbn [bind].
  pose proof (save_all_inner_calls env
                (validProducts platformKey (map (extract_item v) els)) 0 [])
    as Hs.
  destruct (save_all env 0 _ []) as [[saved | e] t]; cbn in *;
    rewrite ?app_nil_r; repeat (constructor; [reflexivity | ]); exact Hs.
Qed.

Lemma setup_shape (v : Variant) (env : Env) :
  exists r ts, setup v env = (r, Launch :: ts) /\
               Forall (fun ev => is_inner_call ev = true) ts.
Proof.
  unfold setup, call, bind, ret.
  destruct (chromium_launch env), (browser_newContext env), v,
           (context_addCookies env), (context_newPage env);
    do 2 eexists; (split; [reflexivity | repeat constructor]).
Qed.

(** The calls of [scrape]: none; or a launch followed by inner calls (the
    set-up threw); or a launch, inner calls and a final close. *)
Lemma scrape_shape (v : Variant) (env : Env) (platformKey : string) :
  trace (scrape v env platformKey) = [] \/
  (exists ts, trace (scrape v env platformKey) = Launch :: ts /\
              Forall (fun ev => is_inner_call ev = true) ts) \/
  (exists mid, trace (scrape v env platformKey) = (Launch :: mid ++ [Close])%list /\
               Forall (fun ev => is_inner_call ev = true) mid).
Proof.
  unfold scrape.
  destruct (CONFIG_get platformKey) as [| c | n]; [left; reflexivity | | ];
    right;
    destruct (setup_shape v env) as [r [ts [Hs Hts]]]; rewrite Hs;
    (destruct r as [[] | e]; [ | left; exists ts; split; [reflexivity | exact Hts]]);
    right; cbn [bind];
    match goal with
    | |- context [cycle v env platformKey ?cfg] =>
        pose proof (cycle_inner_calls v env platformKey cfg) as Hc;
        destruct (cycle v env platformKey cfg) as [[pl | e] tc]
    end;
    cbn [snd] in Hc; exists (ts ++ tc)%list;
    (split; [ | apply Forall_app; split; assumption]);
    unfold call; cbn; destruct (browser_close env); cbn;
    rewrite ?app_nil_r, <- ?app_assoc; reflexivity.
Qed.

Lemma inner_calls_exclude (ts : list Event) :
  Forall (fun ev => is_inner_call ev = true) ts ->
  ~ In Launch ts /\ ~ In Close ts.
Proof.
  intros H. rewrite Forall_forall in H.
  split; intros Hin; apply H in Hin; discriminate.
Qed.

(** X27: Whatever the environment answers, a cycle launches at most one
    browser, as its first call, and calls [browser.close()] at most once,
    as its last call: nothing is ever called on a closed browser. *)
Theorem one_browser_per_cycle (v : Variant) (env : Env) (platformKey : string) :
  (trace (scrape v env platformKey) = [] \/
   exists rest, trace (scrape v env platformKey) = Launch :: rest /\
                ~ In Launch rest) /\
  (~ In Close (trace (scrape v env platformKey)) \/
   exists body, trace (scrape v env platformKey) = (body ++ [Close])%list /\
                ~ In Close body).
Proof.
  destruct (scrape_shape v env platformKey)
    as [H | [[ts [H Hts]] | [mid [H Hmid]]]]; rewrite H.
  - split; [left; reflexivity | left; intros []].
  - destruct (inner_calls_exclude ts Hts) as [HL HC].
    split; [right; exists ts; auto | ].
    left. intros [Hin | Hin]; [discriminate | auto].
  - destruct (inner_calls_exclude mid Hmid) as [HL HC]. split.
    + right. exists (mid ++ [Close])%list. split; [reflexivity | ].
      intros Hin. apply in_app_or in Hin as [Hin | [Hin | []]];
        [auto | discriminate].
    + right. exists (Launch :: mid). split; [reflexivity | ].
      intros [Hin | Hin]; [discriminate | auto].
Qed.

(** X25: When a call of the set-up throws, be it the launch, the opening of the
    context, the cookies or the opening of the page, the error leaves
    [scrape] as it is: no payload is built and [browser.close()] is not
    called. *)
Theorem setup_error_escapes_scrape
        (v : Variant) (env : Env) (platformKey message : string)
        (ts : list Event) :
  CONFIG_get platformKey <> CfgUndefined ->
  setup v env = (Throws message, ts) ->
  scrape v env platformKey = (Throws message, ts) /\ ~ In Close ts.
Proof.
  intros Hcfg Hsetup. split.
  - unfold scrape.
    destruct (CONFIG_get platformKey); [congruence | | ];
      rewrite Hsetup; reflexivity.
  - destruct (setup_shape v env) as [r [ts' [Hs Hts]]].
    rewrite Hs in Hsetup. inversion Hsetup; subst.
    intros [Hin | Hin]; [discriminate | ].
    exact (proj2 (inner_calls_exclude ts' Hts) Hin).
Qed.

Lemma setup_error_escapes_scrape_witness :
  scrape Part000 (page_fails "context.newPage: Target closed") "temu"
  = (Throws "context.newPage: Target closed", [Launch; NewContext; NewPage]) /\
  ~ In Close [Launch; NewContext; NewPage].
Proof.
  apply (setup_error_escapes_scrape
           Part000 (page_fails "context.newPage: Target closed") "temu");
    [discriminate | reflexivity].
Defined.

(** X26: Once the set-up has gone through, [browser.close()] is the last call
    of the cycle, whether the [try] block returned a response or threw. *)
Theorem close_is_last_call_after_setup
        (v : Variant) (env : Env) (platformKey : string) (ts : list Event) :
  CONFIG_get platformKey <> CfgUndefined ->
  setup v env = (Returns tt, ts) ->
  exists t, trace (scrape v env platformKey) = (t ++ [Close])%list.
Proof.
  intros Hcfg Hsetup. unfold scrape.
  destruct (CONFIG_get platformKey) as [| c | n]; [congruence | | ];
    rewrite Hsetup; cbn [bind];
    match goal with
    | |- context [try_finally ?b (call Close ?a)] =>
        destruct (try_finally_trace b Close a) as [t Ht];
        destruct (try_finally b (call Close a)) as [r t']
    end;
    cbn [trace snd] in *; subst t'; exists (ts ++ t)%list;
    rewrite app_assoc; reflexivity.
Qed.

Lemma close_is_last_call_after_setup_witness :
  exists t,
    trace (scrape ServerJs (navigation_fails "net::ERR_NAME_NOT_RESOLVED")
                  "temu")
    = (t ++ [Close])%list.
Proof.
  apply (close_is_last_call_after_setup
           ServerJs (navigation_fails "net::ERR_NAME_NOT_RESOLVED") "temu"
           [Launch; NewContext; AddCookies; NewPage]);
    [discriminate | reflexivity].
Defined.

(** ** The route handler *)

Lemma no_response_among_calls (t : list Event) :
  filter is_response (map Called t) = [].
Proof. induction t as [| ev t IH]; [reflexivity | exact IH]. Qed.

(** The handler sends exactly one response, the payload, when [scrape]
    returns, and none when [scrape] throws. *)
Theorem handler_responds_iff_scrape_returns
        (v : Variant) (env : Env) (platformParam : string) :
  filter is_response (snd (handler v env platformParam)) =
  match fst (scrape v env platformParam) with
  | Returns result => [ResJson result]
  | Throws _ => []
  end.
Proof.
  unfold handler. destruct (scrape v env platformParam) as [[result | e] t];
    cbn [fst snd].
  - rewrite filter_app, no_response_among_calls. reflexivity.
  - apply no_response_among_calls.
Qed.



(** ** The title *)

Lemma drop_add (n k : nat) (s : string) :
  drop (n + k) s = drop k (drop n s).
Proof.
  revert s. induction n as [| n IH]; intros s; [reflexivity | ].
  destruct s as [| a r]; [destruct k; reflexivity | ].
  cbn [Nat.add drop]. apply IH.
Qed.

(** What is left after the leading run of white space starts with none. *)
Lemma white_space_run_complete (fuel : nat) :
  forall s : string,
    (String.length s <= fuel)%nat ->
    white_space_width (drop (white_space_run fuel s) s) = O.
Proof.
  induction fuel as [| f IH]; intros s H.
  - destruct s; [reflexivity | cbn in H; lia].
  - cbn [white_space_run].
    pose proof (white_space_width_le s) as Hw.
    destruct (white_space_width s) as [| w] eqn:E; [exact E | ].
    rewrite drop_add. apply IH. rewrite length_drop. lia.
Qed.

Lemma trimStart_no_leading_white_space (s : string) :
  white_space_width (trimStart s) = O.
Proof. apply white_space_run_complete. lia. Qed.

Lemma trimEnd_prefix (s : string) : String.prefix (trimEnd s) s = true.
Proof.
  induction s as [| a r IH]; [reflexivity | ].
  cbn [trimEnd]. destruct (all_white_space (String a r)); [reflexivity | ].
  cbn [String.prefix]. destruct (ascii_dec a a); [exact IH | congruence].
Qed.

(** Cutting the end of a text cannot make it start with white space. *)
Lemma white_space_width_prefix (y x : string) :
  String.prefix y x = true ->
  white_space_width x = O -> white_space_width y = O.
Proof.
  destruct y as [| a [| b [| c y3]]], x as [| a' [| b' [| c' x3]]];
    cbn [String.prefix];
    repeat match goal with
           | |- context [ascii_dec ?u ?w] => destruct (ascii_dec u w)
           end;
    try discriminate; subst; intros _; unfold white_space_width;
    repeat match goal with
           | |- context [(?u <=? ?w)%N] => destruct (u <=? w)%N; cbn [andb orb]
           | |- context [(?u =? ?w)%N] => destruct (u =? w)%N; cbn [andb orb]
           end;
    intros H; try reflexivity; try discriminate H.
Qed.

(** X29: The title never starts with white space, and it is empty when the
    card has neither a brand nor a name text: the space that joins the two
    is trimmed away. *)
Theorem title_is_trimmed (v : Variant) (el : Element) :
  white_space_width (title (extract_item v el)) = O /\
  (brand el = "" -> name el = "" -> title (extract_item v el) = "").
Proof.
  assert (Ht : title (extract_item v el) = trim (brand el ++ " " ++ name el)).
  { unfold extract_item. destruct (prices v el). reflexivity. }
  rewrite Ht. split.
  - unfold trim.
    apply (white_space_width_prefix _ _ (trimEnd_prefix _)),
      trimStart_no_leading_white_space.
  - intros -> ->. reflexivity.
Qed.

(** ** A token of the scan, parsed *)













